(** * CodeRefine: the analysis request/response pipeline

    A shallow embedding of the JavaScript of the repository:
    - [CodeAnalysisAPI] of api-service.js ([analyzeCode], [makeRequest],
      [transformResponse], [transformIssues], [calculateQualityScore],
      [countSeverity], [validateInput]);
    - [CONFIG] of config.js;
    - [getMockAnalysisData] and the click handler of the analyze button of
      script.js.

    Conventions of the embedding.
    - A JavaScript value is a [value]: the data a JSON document or a form
      field can deliver, plus [undefined], the result of reading a property
      that is absent.  Of a number the code uses two things only, whether
      it is falsy and the text that it converts to; a [number] is these
      two, so that integers, fractions and the numbers that are printed
      with an exponent are all covered.
    - A string is a [string] of the standard library: the character of
      number [n] stands for the code unit [n], so the strings are those
      over the code units below 256, and [length], [trim] and
      [toLowerCase] are the ones of JavaScript on these.
    - A computation that can raise returns a [result]; a computation that
      also talks to the provider, waits or logs is a function of the
      [world], which records what has been done so far. *)

From Stdlib Require Import String Ascii List ZArith Bool Arith Lia.
From Stdlib Require Import DecimalString.
From Stdlib Require Sorted.
Import ListNotations.

Local Open Scope string_scope.
Local Open Scope list_scope.

(** ** Values *)

#[local] Set Warnings "-register-all".

(** A number: [isZero] for 0 and -0, the numbers that are falsy, and the
    text of its conversion to a string. *)
Record number : Type := mkNumber {
  isZero : bool;
  numberText : string
}.

Inductive value : Type :=
| VUndefined
| VNull
| VBool (b : bool)
| VNum (n : number)
| VStr (s : string)
| VArr (elements : list value)
| VObj (fields : list (string * value)).

(** What a [throw] carries. *)
Inductive exn : Type :=
| TypeError                   (* raised by the language itself *)
| SyntaxError                 (* a body that is not JSON *)
| AbortError                  (* an aborted fetch *)
| Error (message : string)    (* new Error(message) *)
| Thrown (v : value).         (* any other thrown value *)

Inductive result (A : Type) : Type :=
| OK (a : A)
| Throw (e : exn).
Arguments OK {A} a.
Arguments Throw {A} e.

Definition bind {A B} (r : result A) (k : A -> result B) : result B :=
  match r with
  | OK a => k a
  | Throw e => Throw e
  end.

Declare Scope js_scope.
Delimit Scope js_scope with js.
Notation "x <- c ;; k" := (bind c (fun x => k))
  (at level 61, c at next level, right associativity) : js_scope.
Local Open Scope js_scope.

Fixpoint mapM {A B} (f : A -> result B) (l : list A) : result (list B) :=
  match l with
  | [] => OK []
  | a :: l' => b <- f a ;; bs <- mapM f l' ;; OK (b :: bs)
  end.

(** ToBoolean. *)
Definition truthy (v : value) : bool :=
  match v with
  | VUndefined | VNull => false
  | VBool b => b
  | VNum n => negb (isZero n)
  | VStr s => negb (s =? "")
  | VArr _ | VObj _ => true
  end.

(** [a || b] on values that are already evaluated. *)
Definition js_or (a b : value) : value := if truthy a then a else b.

Fixpoint lookup (k : string) (fields : list (string * value)) : option value :=
  match fields with
  | [] => None
  | (k', v) :: rest => if k' =? k then Some v else lookup k rest
  end.

(** [v.k] for the field names that the code reads; none of them is an
    index, [length] or a name that a prototype defines.  Reading from
    [undefined] or [null] raises a TypeError, an object gives its own
    property, every other value gives [undefined]. *)
Definition get (v : value) (k : string) : result value :=
  match v with
  | VUndefined | VNull => Throw TypeError
  | VObj fields =>
      match lookup k fields with
      | Some x => OK x
      | None => OK VUndefined
      end
  | _ => OK VUndefined
  end.

(** The decimal digits of an integer: what a template literal prints for
    an integer below 10^21, as the status of a response and the number of
    a line are. *)
Definition numToString (n : Z) : string :=
  NilZero.string_of_int (Z.to_int n).

Fixpoint join (sep : string) (l : list string) : string :=
  match l with
  | [] => ""
  | [s] => s
  | s :: l' => s ++ sep ++ join sep l'
  end.

(** ToString, as a template literal applies it.  An object is printed by
    the method [toString] that it inherits, unless it has a property of
    that name of its own: a property of a JSON object is no function, and
    the conversion raises a TypeError.  An array joins the conversions of
    its elements, [undefined] and [null] giving the empty string, and
    raises when one of them does. *)
Fixpoint toString (v : value) : result string :=
  match v with
  | VUndefined => OK "undefined"
  | VNull => OK "null"
  | VBool true => OK "true"
  | VBool false => OK "false"
  | VNum n => OK (numberText n)
  | VStr s => OK s
  | VArr l =>
      pieces <-
        (fix each (l : list value) : result (list string) :=
           match l with
           | [] => OK []
           | x :: l' =>
               piece <- match x with
                        | VUndefined | VNull => OK ""
                        | _ => toString x
                        end ;;
               rest <- each l' ;;
               OK (piece :: rest)
           end) l ;;
      OK (join "," pieces)
  | VObj fields =>
      match lookup "toString" fields with
      | Some _ => Throw TypeError
      | None => OK "[object Object]"
      end
  end.

(** ** Strings *)

(** The lower case of a code unit below 256: the letters A-Z and the
    letters from U+00C0 to U+00DE, the sign U+00D7 excepted, have one, 32
    above. *)
Definition lowerUnit (c : ascii) : ascii :=
  let n := nat_of_ascii c in
  if (((65 <=? n) && (n <=? 90)) ||
      ((192 <=? n) && (n <=? 222) && negb (n =? 215)))%nat
  then ascii_of_nat (n + 32)
  else c.

Fixpoint toLowerCase (s : string) : string :=
  match s with
  | EmptyString => EmptyString
  | String c s' => String (lowerUnit c) (toLowerCase s')
  end.

(** The white space and the line terminators that [trim] removes: TAB, LF,
    VT, FF, CR, SP and NBSP. *)
Definition isWhiteSpace (c : ascii) : bool :=
  let n := nat_of_ascii c in
  (((9 <=? n) && (n <=? 13)) || (n =? 32) || (n =? 160))%nat.

Fixpoint trimStartChars (l : list ascii) : list ascii :=
  match l with
  | [] => []
  | c :: l' => if isWhiteSpace c then trimStartChars l' else l
  end.

Definition trim (s : string) : string :=
  string_of_list_ascii
    (rev (trimStartChars (rev (trimStartChars (list_ascii_of_string s))))).

Fixpoint startsWith (p s : string) : bool :=
  match p, s with
  | EmptyString, _ => true
  | String a p', String b s' => Ascii.eqb a b && startsWith p' s'
  | String _ _, EmptyString => false
  end.

(** [s.includes(p)] *)
Fixpoint includes (p s : string) : bool :=
  startsWith p s ||
  match s with
  | EmptyString => false
  | String _ s' => includes p s'
  end.

(** ** Reports *)

Inductive grade : Type := Aplus | A | Bplus | B | Cplus | C.

Definition gradeString (g : grade) : string :=
  match g with
  | Aplus => "A+" | A => "A" | Bplus => "B+"
  | B => "B" | Cplus => "C+" | C => "C"
  end.

(** The fixed ordering A+ > A > B+ > B > C+ > C. *)
Definition gradeRank (g : grade) : nat :=
  match g with
  | Aplus => 5 | A => 4 | Bplus => 3 | B => 2 | Cplus => 1 | C => 0
  end.

Definition grade_le (g1 g2 : grade) : Prop := gradeRank g1 <= gradeRank g2.

Record finding : Type := mkFinding {
  title : value;
  severity : string;
  description : value;
  location : value;
  code : value;
  suggestion : value
}.

Record Stats : Type := mkStats {
  issuesCount : nat;
  securityCount : nat;
  optimizationsCount : nat;
  qualityScore : grade
}.

Record report : Type := mkReport {
  issues : list finding;
  security : list finding;
  performance : list finding;
  optimized : value;
  stats : Stats
}.

(** ** config.js *)

Record RetryConfig : Type := mkRetry {
  maxRetries : Z;
  retryDelay : Z
}.

Record ApiConfig : Type := mkApi {
  cfgBaseUrl : string;
  cfgApiKey : string;
  cfgTimeout : Z;
  retry : RetryConfig
}.

Record AnalysisConfig : Type := mkAnalysis {
  maxCodeLength : Z;
  supportedLanguages : list string;
  severityLevels : list string
}.

Record Config : Type := mkConfig {
  api : ApiConfig;
  analysis : AnalysisConfig
}.

(** [CONFIG]; [API_KEY] is [process.env.API_KEY], unset or a string. *)
Definition CONFIG (API_KEY : option string) : Config :=
  {| api :=
       {| cfgBaseUrl := "https://api.yourservice.com/v1";
          cfgApiKey :=
            match API_KEY with
            | Some k => if k =? "" then "your-api-key-here" else k
            | None => "your-api-key-here"
            end;
          cfgTimeout := 30000;
          retry := {| maxRetries := 3; retryDelay := 1000 |} |};
     analysis :=
       {| maxCodeLength := 50000;
          supportedLanguages :=
            ["javascript"; "python"; "java"; "cpp"; "csharp"; "go"; "rust";
             "typescript"; "php"; "ruby"; "swift"; "kotlin"];
          severityLevels := ["high"; "medium"; "low"] |} |}.

(** ** api-service.js: the response normalizer *)

(** [v.toLowerCase()]: only a string has the method. *)
Definition callToLowerCase (v : value) : result string :=
  match v with
  | VStr s => OK (toLowerCase s)
  | _ => Throw TypeError
  end.

(** [v.trim()] *)
Definition callTrim (v : value) : result string :=
  match v with
  | VStr s => OK (trim s)
  | _ => Throw TypeError
  end.

(** [a || b], [b] evaluated only when [a] is falsy. *)
Definition orElse (a : value) (b : result value) : result value :=
  if truthy a then OK a else b.

(** The callback of [issues.map] in [transformIssues]. *)
Definition transformIssue (issue : value) : result finding :=
  t <- get issue "title" ;;
  title <- orElse t (get issue "message") ;;
  sev <- get issue "severity" ;;
  severity <- callToLowerCase sev ;;
  d <- get issue "description" ;;
  description <- orElse d (get issue "details") ;;
  loc <- get issue "location" ;;
  location <-
    orElse loc
      (line <- get issue "line" ;;
       text <- toString (js_or line (VStr "Unknown")) ;;
       OK (VStr ("Line " ++ text))) ;;
  snippet <- get issue "codeSnippet" ;;
  rec <- get issue "recommendation" ;;
  suggestion <- orElse rec (fix_ <- get issue "fix" ;; OK (js_or fix_ (VStr ""))) ;;
  OK {| title := title;
        severity := severity;
        description := description;
        location := location;
        code := js_or snippet (VStr "");
        suggestion := suggestion |}.

(** [issues.map(...)]: only an array has the method. *)
Definition transformIssues (issues : value) : result (list finding) :=
  match issues with
  | VArr l => mapM transformIssue l
  | _ => Throw TypeError
  end.

(** [x.length] of a collection.  An array and a string have a length.  For
    any other value JavaScript goes on with [undefined] (or with whatever an
    object stores under that name) and raises a TypeError at the next use
    of the same collection, before anything can be observed: [x.map] has
    come before in [transformResponse], the spread [...x] follows in
    [countSeverity]; the embedding raises that TypeError here. *)
Definition lengthOf (x : value) : result nat :=
  match x with
  | VArr l => OK (List.length l)
  | VStr s => OK (String.length s)
  | _ => Throw TypeError
  end.

(** [...x] inside an array literal: an array gives its elements, a string
    its characters, nothing else is iterable. *)
Definition spread (x : value) : result (list value) :=
  match x with
  | VArr l => OK l
  | VStr s => OK (map (fun c => VStr (String c "")) (list_ascii_of_string s))
  | _ => Throw TypeError
  end.

(** The callback of [allIssues.filter] in [countSeverity]. *)
Definition hasSeverity (severity : string) (issue : value) : result bool :=
  sev <- get issue "severity" ;;
  lower <- callToLowerCase sev ;;
  OK (lower =? severity).

Definition countTrue (l : list bool) : nat :=
  List.length (filter (fun b => b) l).

Definition countSeverity (apiResponse : value) (severity : string) : result nat :=
  i <- get apiResponse "issues" ;;
  xs <- spread (js_or i (VArr [])) ;;
  s <- get apiResponse "security" ;;
  ys <- spread (js_or s (VArr [])) ;;
  p <- get apiResponse "performance" ;;
  zs <- spread (js_or p (VArr [])) ;;
  let allIssues := xs ++ ys ++ zs in
  kept <- mapM (hasSeverity severity) allIssues ;;
  OK (countTrue kept).

(** The chain of tests that ends [calculateQualityScore]. *)
Definition scoreOf (highSeverity totalIssues : nat) : grade :=
  if (totalIssues =? 0)%nat then Aplus
  else if ((highSeverity =? 0) && (totalIssues <=? 2))%nat then A
  else if ((highSeverity =? 0) && (totalIssues <=? 5))%nat then Bplus
  else if ((highSeverity <=? 1) && (totalIssues <=? 8))%nat then B
  else if (highSeverity <=? 2)%nat then Cplus
  else C.

(** The sum of the three lengths that opens [calculateQualityScore]. *)
Definition totalIssues (apiResponse : value) : result nat :=
  i <- get apiResponse "issues" ;;
  ni <- lengthOf (js_or i (VArr [])) ;;
  s <- get apiResponse "security" ;;
  ns <- lengthOf (js_or s (VArr [])) ;;
  p <- get apiResponse "performance" ;;
  np <- lengthOf (js_or p (VArr [])) ;;
  OK (ni + ns + np).

Definition calculateQualityScore (apiResponse : value) : result grade :=
  totalIssues <- totalIssues apiResponse ;;
  highSeverity <- countSeverity apiResponse "high" ;;
  mediumSeverity <- countSeverity apiResponse "medium" ;;
  OK (scoreOf highSeverity totalIssues).

Definition transformResponse (apiResponse : value) : result report :=
  i <- get apiResponse "issues" ;;
  issues <- transformIssues (js_or i (VArr [])) ;;
  s <- get apiResponse "security" ;;
  security <- transformIssues (js_or s (VArr [])) ;;
  p <- get apiResponse "performance" ;;
  performance <- transformIssues (js_or p (VArr [])) ;;
  o <- get apiResponse "optimizedCode" ;;
  issuesCount <- lengthOf (js_or i (VArr [])) ;;
  securityCount <- lengthOf (js_or s (VArr [])) ;;
  optimizationsCount <- lengthOf (js_or p (VArr [])) ;;
  qualityScore <- calculateQualityScore apiResponse ;;
  OK {| issues := issues;
        security := security;
        performance := performance;
        optimized := js_or o (VStr "");
        stats := {| issuesCount := issuesCount;
                    securityCount := securityCount;
                    optimizationsCount := optimizationsCount;
                    qualityScore := qualityScore |} |}.

(** ** api-service.js: input validation *)

Record validation : Type := mkValidation {
  isValid : bool;
  errors : list string
}.

(** The array literal of [validateInput]. *)
Definition supported : list string :=
  ["javascript"; "python"; "java"; "cpp"; "csharp";
   "go"; "rust"; "typescript"; "php"; "ruby"; "swift"; "kotlin"].

(** [supportedLanguages.includes(language)]: the array holds strings only,
    so nothing but an equal string is found. *)
Definition includesLanguage (language : value) : bool :=
  match language with
  | VStr l => existsb (String.eqb l) supported
  | _ => false
  end.

(** [code.length > 50000].  A truthy [code] that is not a string has raised
    at [code.trim()]; of the falsy values [undefined] and [null] raise here,
    [false] and [0] have no length and [undefined > 50000] is false. *)
Definition tooLong (code : value) : result bool :=
  match code with
  | VUndefined | VNull => Throw TypeError
  | VStr s => OK (50000 <? Z.of_nat (String.length s))%Z
  | VArr l => OK (50000 <? Z.of_nat (List.length l))%Z
  | _ => OK false
  end.

Definition validateInput (code language : value) : result validation :=
  let errors := [] in
  empty <-
    (if negb (truthy code) then OK true
     else (trimmed <- callTrim code ;; OK (String.length trimmed =? 0)%nat)) ;;
  let errors :=
    if empty then errors ++ ["Code cannot be empty"] else errors in
  long <- tooLong code ;;
  let errors :=
    if long
    then errors ++ ["Code exceeds maximum length of 50,000 characters"]
    else errors in
  errors <-
    (if negb (includesLanguage language)
     then (text <- toString language ;;
           OK (errors ++ [("Unsupported language: " ++ text)%string]))
     else OK errors) ;;
  OK {| isValid := (List.length errors =? 0)%nat; errors := errors |}.

(** ** api-service.js: the request dispatcher *)

(** The second argument of [fetch]; a field that is absent is [None].  The
    body is the payload that [JSON.stringify] encodes. *)
Record RequestInit : Type := mkInit {
  method : option string;
  headers : option (list (string * string));
  body : option value
}.

(** [{ ...a, ...b }] *)
Definition spreadInit (a b : RequestInit) : RequestInit :=
  {| method := match method b with Some m => Some m | None => method a end;
     headers := match headers b with Some h => Some h | None => headers a end;
     body := match body b with Some x => Some x | None => body a end |}.

Record response : Type := mkResponse {
  status : Z;
  statusText : string;
  json : result value             (* what [response.json()] settles to *)
}.

(** [response.ok]: a status in the range 200-299. *)
Definition ok (r : response) : bool :=
  ((200 <=? status r) && (status r <=? 299))%Z.

(** How one call of [fetch] ends: the promise rejects (no network, or the
    abort that the timer of the attempt fires) or gives a response. *)
Inductive outcome : Type :=
| Rejected (e : exn)
| Responded (r : response).

(** The provider answers the call number [n] (from 0) for a URL and its
    options. *)
Definition Provider : Type := string -> RequestInit -> nat -> outcome.

Inductive event : Type :=
| EvFetch (url : string) (init : RequestInit)
| EvDelay (ms : Z)
| EvConsoleError (label : string) (e : exn).

(** The world: what has happened so far, oldest first. *)
Definition world : Type := list event.

Definition isFetch (e : event) : bool :=
  match e with EvFetch _ _ => true | _ => false end.

Definition fetchCount (w : world) : nat := List.length (filter isFetch w).

Definition delaysOf (w : world) : list Z :=
  flat_map (fun e => match e with EvDelay ms => [ms] | _ => [] end) w.

Definition consoleErrors (w : world) : list (string * exn) :=
  flat_map
    (fun e => match e with EvConsoleError l x => [(l, x)] | _ => [] end) w.

(** Computations that raise and act on the world. *)
Definition M (A : Type) : Type := world -> result A * world.

Definition retM {A} (a : A) : M A := fun w => (OK a, w).

Definition throwM {A} (e : exn) : M A := fun w => (Throw e, w).

Definition lift {A} (r : result A) : M A := fun w => (r, w).

Definition bindM {A B} (m : M A) (k : A -> M B) : M B :=
  fun w =>
    match m w with
    | (OK a, w') => k a w'
    | (Throw e, w') => (Throw e, w')
    end.

(** [try { m } catch (e) { h e }] *)
Definition tryCatch {A} (m : M A) (h : exn -> M A) : M A :=
  fun w =>
    match m w with
    | (OK a, w') => (OK a, w')
    | (Throw e, w') => h e w'
    end.

Notation "x <~ c ;; k" := (bindM c (fun x => k))
  (at level 61, c at next level, right associativity) : js_scope.

(** [this] of a [CodeAnalysisAPI]. *)
Record CodeAnalysisAPI : Type := mkThis {
  baseUrl : string;
  apiKey : string;
  timeout : Z;
  retryConfig : RetryConfig
}.

Definition constructor (config : Config) : CodeAnalysisAPI :=
  {| baseUrl := cfgBaseUrl (api config);
     apiKey := cfgApiKey (api config);
     timeout := cfgTimeout (api config);
     retryConfig := retry (api config) |}.

Section Dispatcher.

Variable provider : Provider.
Variable this : CodeAnalysisAPI.

Definition fetch (url : string) (init : RequestInit) : M response :=
  fun w =>
    let w' := w ++ [EvFetch url init] in
    match provider url init (fetchCount w) with
    | Rejected e => (Throw e, w')
    | Responded r => (OK r, w')
    end.

(** [await this.delay(ms)] *)
Definition delay (ms : Z) : M unit :=
  fun w => (OK tt, w ++ [EvDelay ms]).

Definition consoleError (label : string) (e : exn) : M unit :=
  fun w => (OK tt, w ++ [EvConsoleError label e]).

(** The [try] block of one turn of the loop of [makeRequest]. *)
Definition attemptOnce (url : string) (requestOptions : RequestInit)
  : M value :=
  response <~ fetch url requestOptions ;;
  if negb (ok response)
  then throwM (Error ("HTTP " ++ numToString (status response) ++ ": "
                        ++ statusText response))
  else lift (json response).

(** The loop of [makeRequest] with [turns] turns left, [attempt] being
    the loop variable. *)
Fixpoint retryLoop (turns : nat) (url : string) (requestOptions : RequestInit)
    (attempt : Z) (lastError : exn) : M value :=
  match turns with
  | O => throwM lastError
  | S turns' =>
      tryCatch (attemptOnce url requestOptions)
        (fun error =>
           _ <~ (if (attempt <? maxRetries (retryConfig this))%Z
                 then delay (retryDelay (retryConfig this) * (attempt + 1))
                 else retM tt) ;;
           retryLoop turns' url requestOptions (attempt + 1) error)
  end.

(** [attempt] runs from 0 while [attempt <= maxRetries]: that is
    [maxRetries + 1] turns, none when [maxRetries] is negative. *)
Definition defaultOptions : RequestInit :=
  {| method := None;
     headers := Some [("Content-Type", "application/json");
                      ("Authorization", ("Bearer " ++ apiKey this)%string);
                      ("X-Client-Version", "1.0.0")];
     body := None |}.

Definition makeRequest (endpoint : string) (options : RequestInit)
  : M value :=
  let url := (baseUrl this ++ endpoint)%string in
  let requestOptions := spreadInit defaultOptions options in
  retryLoop (Z.to_nat (maxRetries (retryConfig this) + 1))
            url requestOptions 0 (Thrown VUndefined).

Definition analyzeCode (code language : value) : M report :=
  tryCatch
    (response <~
       makeRequest "/analyze"
         {| method := Some "POST";
            headers := None;
            body :=
              Some (VObj [("code", code);
                          ("language", language);
                          ("analysisOptions",
                           VObj [("checkBugs", VBool true);
                                 ("checkSecurity", VBool true);
                                 ("checkPerformance", VBool true);
                                 ("generateOptimized", VBool true)])]) |} ;;
     lift (transformResponse response))
    (fun error =>
       _ <~ consoleError "Analysis failed:" error ;;
       throwM (Error "Failed to analyze code. Please try again.")).

End Dispatcher.

(** ** script.js: the mock provider and the analyze button *)

Definition mockFinding (title severity description location code suggestion : string)
  : finding :=
  {| title := VStr title;
     severity := severity;
     description := VStr description;
     location := VStr location;
     code := VStr code;
     suggestion := VStr suggestion |}.

Definition mockOptimized : string :=
"// Optimized version using modern JavaScript best practices

function calculateTotal(items) {
    // Validate input
    if (!Array.isArray(items)) {
        throw new TypeError('Expected items to be an array');
    }
    
    // Use reduce for efficient summation
    // This is more declarative and typically better optimized by JS engines
    return items.reduce((total, item) => {
        // Validate each item has a price property
        if (typeof item?.price !== 'number') {
            console.warn('Item missing valid price:', item);
            return total;
        }
        return total + item.price;
    }, 0);
}

// Alternative: If you need to filter out invalid items first
function calculateTotalWithValidation(items) {
    return items
        .filter(item => typeof item?.price === 'number')
        .reduce((total, item) => total + item.price, 0);
}

// Example usage:
const items = [
    { name: 'Item 1', price: 10.99 },
    { name: 'Item 2', price: 25.50 },
    { name: 'Item 3', price: 5.00 }
];

console.log(calculateTotal(items)); // 41.49".

Definition getMockAnalysisData (code language : value) : report :=
  {| issues :=
       [ mockFinding
           "Using var instead of const/let"
           "medium"
           "The var keyword has function scope which can lead to unexpected behavior. Use const for constants and let for variables that need to be reassigned."
           "Line 2"
           "var total = 0;"
           "Replace var with let or const based on whether the variable is reassigned.";
         mockFinding
           "Inefficient loop iteration"
           "low"
           "Accessing array.length in every loop iteration is inefficient. Cache the length before the loop."
           "Line 3"
           "for (var i = 0; i < items.length; i++)"
           "Cache the array length: const len = items.length; for (let i = 0; i < len; i++)" ];
     security :=
       [ mockFinding
           "Potential type coercion issue"
           "medium"
           "Using loose equality (==) can lead to unexpected type coercion. Always use strict equality (===) to avoid security vulnerabilities."
           "Line 3"
           "if (value == null)"
           "Use strict equality: if (value === null)" ];
     performance :=
       [ mockFinding
           "Array concatenation in loop"
           "medium"
           "Concatenating values in a loop creates a new array on each iteration, which is inefficient for large datasets."
           "Line 3-5"
           "total = total + items[i].price;"
           "Use array methods like reduce() for better performance: items.reduce((sum, item) => sum + item.price, 0)";
         mockFinding
           "Consider using modern array methods"
           "low"
           "Modern array methods like reduce(), map(), and filter() are more declarative and often more performant."
           "Line 3-5"
           "for loop"
           "Use functional programming approach with reduce() method" ];
     optimized := VStr mockOptimized;
     stats := {| issuesCount := 2;
                 securityCount := 1;
                 optimizationsCount := 2;
                 qualityScore := Bplus |} |}.

(** What the click on the analyze button shows: the alert, or the report
    that the summary cards and the lists are filled from. *)
Inductive shown : Type :=
| Alert (message : string)
| Results (analysis : report).

(** The handler of [analyzeBtn], from the text of the editor and the value
    of the language select. *)
Definition analyzeClick (codeInputValue languageSelectValue : string) : shown :=
  let code := trim codeInputValue in
  if code =? ""
  then Alert "Please enter some code to analyze"
  else Results (getMockAnalysisData (VStr code) (VStr languageSelectValue)).

(** ** script.js: the editor *)

Definition LF : ascii := ascii_of_nat 10.

(** The double quote. *)
Definition quote : string := String (ascii_of_nat 34) EmptyString.

(** [s.split(sep)] for a separator of one character: the pieces between
    the separators, at least one piece. *)
Fixpoint splitOn (sep : ascii) (s : string) : list string :=
  match s with
  | EmptyString => [EmptyString]
  | String c s' =>
      if Ascii.eqb c sep then EmptyString :: splitOn sep s'
      else
        match splitOn sep s' with
        | [] => [String c EmptyString]
        | piece :: pieces => String c piece :: pieces
        end
  end.

(** The callback of [lines.map] in [updateLineNumbers]. *)
Definition lineNumberDiv (index : nat) : string :=
  "<div class=" ++ quote ++ "line-number" ++ quote ++ ">"
    ++ numToString (Z.of_nat index + 1) ++ "</div>".

(** What [updateLineNumbers] writes: the content of the gutter and the two
    numbers of the status line. *)
Record lineNumbersView : Type := mkLineNumbers {
  lineNumbersHTML : string;
  lineCountText : nat;
  charCountText : nat
}.

Definition updateLineNumbers (codeInputValue : string) : lineNumbersView :=
  let lines := splitOn LF codeInputValue in
  {| lineNumbersHTML :=
       join "" (map lineNumberDiv (seq 0 (List.length lines)));
     lineCountText := List.length lines;
     charCountText := String.length codeInputValue |}.

(** [value.substring(0, start) + '    ' + value.substring(end)] and the new
    position of the caret, for the Tab key in the editor. *)
Definition insertTab (value : string) (start end_ : nat) : string * nat :=
  ((substring 0 start value ++ "    "
      ++ substring end_ (String.length value - end_) value)%string,
   start + 4).

(** The table of the upload handler. *)
Definition languageMap : list (string * string) :=
  [("js", "javascript"); ("py", "python"); ("java", "java"); ("cpp", "cpp");
   ("c", "cpp"); ("cs", "csharp"); ("go", "go"); ("rs", "rust");
   ("ts", "typescript"); ("php", "php"); ("rb", "ruby"); ("swift", "swift");
   ("kt", "kotlin")].

Fixpoint assoc (k : string) (table : list (string * string)) : option string :=
  match table with
  | [] => None
  | (k', v) :: rest => if k' =? k then Some v else assoc k rest
  end.

(** [languageMap[extension]] for an extension in lower case: a language of
    the table, a property that the object inherits ([constructor] and
    [__proto__] are the two whose names are in lower case; they are truthy
    and no language), or [undefined]. *)
Inductive detection : Type :=
| Language (language : string)
| Inherited
| NoLanguage.

(** [file.name.split('.').pop().toLowerCase()]; [split] gives at least one
    piece, so [pop] gives a string. *)
Definition extensionOf (fileName : string) : string :=
  toLowerCase (last (splitOn "."%char fileName) EmptyString).

Definition detectLanguage (fileName : string) : detection :=
  let extension := extensionOf fileName in
  match assoc extension languageMap with
  | Some language => Language language
  | None =>
      if (extension =? "constructor") || (extension =? "__proto__")
      then Inherited
      else NoLanguage
  end.

(** [escapeHtml]: the text becomes the only child of a [div], and
    [innerHTML] serializes a text node with [&], the no-break space, [<]
    and [>] replaced. *)
Definition escapeChar (c : ascii) : string :=
  match nat_of_ascii c with
  | 38 => "&amp;"
  | 160 => "&nbsp;"
  | 60 => "&lt;"
  | 62 => "&gt;"
  | _ => String c EmptyString
  end.

Fixpoint escapeHtml (text : string) : string :=
  match text with
  | EmptyString => EmptyString
  | String c text' => escapeChar c ++ escapeHtml text'
  end.

(** The report with no finding and the top grade. *)
Definition emptyReport : report :=
  {| issues := [];
     security := [];
     performance := [];
     optimized := VStr "";
     stats := {| issuesCount := 0;
                 securityCount := 0;
                 optimizationsCount := 0;
                 qualityScore := Aplus |} |}.

(** ** Well-formed responses *)

(** A value that converts to a string. *)
Definition printable (v : value) : Prop := exists text, toString v = OK text.

(** A finding with a severity that is a string and with a location, or
    with a line that can be printed in its place. *)
Definition findingOk (issue : value) : Prop :=
  exists s loc line,
    get issue "severity" = OK (VStr s) /\
    get issue "location" = OK loc /\
    get issue "line" = OK line /\
    (truthy loc = true \/ printable (js_or line (VStr "Unknown"))).

(** A collection that is absent (or falsy) or an array of such findings. *)
Definition collectionOk (x : value) : Prop :=
  truthy x = false \/ exists l, x = VArr l /\ Forall findingOk l.

Definition responseOk (apiResponse : value) : Prop :=
  exists i s p,
    get apiResponse "issues" = OK i /\
    get apiResponse "security" = OK s /\
    get apiResponse "performance" = OK p /\
    collectionOk i /\ collectionOk s /\ collectionOk p.

(** A response with [h] findings of high severity among [t] findings. *)
Definition responseWith (h t : nat) : value :=
  VObj [("issues",
         VArr (repeat (VObj [("severity", VStr "High")]) h ++
               repeat (VObj [("severity", VStr "low")]) (t - h)))].

(** ** Predicates and data of the statements on [validateInput] *)

(** A string of white space only, the empty string included. *)
Definition blank (s : string) : bool :=
  forallb isWhiteSpace (list_ascii_of_string s).

Definition errEmpty : string := "Code cannot be empty".

Definition errTooLong : string :=
  "Code exceeds maximum length of 50,000 characters".

(** The message for a language whose conversion to a string is [text]. *)
Definition errUnsupported (text : string) : string :=
  "Unsupported language: " ++ text.

(** [n] spaces. *)
Definition spaces (n : nat) : string :=
  string_of_list_ascii (repeat " "%char n).

(** ** Predicates and data of the statements on the dispatcher *)

(** The data of an attempt that succeeds: the response is ok and its body
    is JSON.  Every other outcome is a failure of the attempt. *)
Definition succeeds (o : outcome) : option value :=
  match o with
  | Rejected _ => None
  | Responded r =>
      if ok r then
        match json r with
        | OK v => Some v
        | Throw _ => None
        end
      else None
  end.

(** What [makeRequest] does when [k] attempts fail and the next one
    succeeds, from the value [attempt] of the loop variable on. *)
Fixpoint retryTrace (url : string) (init : RequestInit) (retryDelay : Z)
    (attempt : Z) (k : nat) : list event :=
  match k with
  | O => [EvFetch url init]
  | S k' =>
      EvFetch url init :: EvDelay (retryDelay * (attempt + 1))
        :: retryTrace url init retryDelay (attempt + 1) k'
  end.

(** A provider that is down for the first [n] calls and then answers with
    [data]. *)
Definition flakyProvider (n : nat) (data : value) : Provider :=
  fun _ _ call =>
    if (call <? n)%nat
    then Responded {| status := 503; statusText := "Service Unavailable";
                      json := Throw SyntaxError |}
    else Responded {| status := 200; statusText := "OK"; json := OK data |}.

(** A [CodeAnalysisAPI] built from a configuration that retries at once:
    three retries, a base delay of zero. *)
Definition zeroDelayApi : CodeAnalysisAPI :=
  {| baseUrl := "https://api.yourservice.com/v1";
     apiKey := "your-api-key-here";
     timeout := 30000;
     retryConfig := {| maxRetries := 3; retryDelay := 0 |} |}.

(** A provider that cannot be reached. *)
Definition deadProvider : Provider := fun _ _ _ => Rejected TypeError.

(** ** Predicates and data of further statements *)

(** The number of occurrences of a character. *)
Fixpoint countChar (c : ascii) (s : string) : nat :=
  match s with
  | EmptyString => 0
  | String d s' => (if Ascii.eqb d c then 1 else 0) + countChar c s'
  end.

(** The four characters that [escapeHtml] replaces. *)
Definition AMP : ascii := ascii_of_nat 38.
Definition NBSP : ascii := ascii_of_nat 160.
Definition LT : ascii := ascii_of_nat 60.
Definition GT : ascii := ascii_of_nat 62.

(** The number of characters of a list of strings. *)
Fixpoint totalLength (l : list string) : nat :=
  match l with
  | [] => 0
  | s :: l' => String.length s + totalLength l'
  end.

(** The error that a failed attempt raises. *)
Definition attemptError (o : outcome) : option exn :=
  match o with
  | Rejected e => Some e
  | Responded r =>
      if ok r then
        match json r with
        | OK _ => None
        | Throw e => Some e
        end
      else Some (Error ("HTTP " ++ numToString (status r) ++ ": "
                          ++ statusText r))
  end.

(** An event of the loop of [makeRequest] from the value [attempt] of its
    variable on: the request, or a delay of the base delay times a retry
    number between [attempt + 1] and [maxRetries]. *)
Definition loopEvent (this : CodeAnalysisAPI) (url : string)
    (init : RequestInit) (attempt : Z) (e : event) : Prop :=
  e = EvFetch url init \/
  exists k, (attempt < k <= maxRetries (retryConfig this))%Z /\
            e = EvDelay (retryDelay (retryConfig this) * k).

(** The request that [analyzeCode] sends. *)
Definition analyzeRequest (this : CodeAnalysisAPI) (code language : value)
  : event :=
  EvFetch (baseUrl this ++ "/analyze")
    {| method := Some "POST";
       headers := Some [("Content-Type", "application/json");
                        ("Authorization", ("Bearer " ++ apiKey this)%string);
                        ("X-Client-Version", "1.0.0")];
       body :=
         Some (VObj [("code", code);
                     ("language", language);
                     ("analysisOptions",
                      VObj [("checkBugs", VBool true);
                            ("checkSecurity", VBool true);
                            ("checkPerformance", VBool true);
                            ("generateOptimized", VBool true)])]) |}.

(** The array [allIssues] of [countSeverity]. *)
Definition allIssuesOf (apiResponse : value) : result (list value) :=
  i <- get apiResponse "issues" ;;
  xs <- spread (js_or i (VArr [])) ;;
  s <- get apiResponse "security" ;;
  ys <- spread (js_or s (VArr [])) ;;
  p <- get apiResponse "performance" ;;
  zs <- spread (js_or p (VArr [])) ;;
  OK (xs ++ ys ++ zs).

(** The fields of a finding that [transformIssues] reads, and the fields
    of a response that [transformResponse] reads. *)
Definition issueFields : list string :=
  ["title"; "message"; "severity"; "description"; "details"; "location";
   "line"; "codeSnippet"; "recommendation"; "fix"].

Definition responseFields : list string :=
  ["issues"; "security"; "performance"; "optimizedCode"].

(** The finding of the response format that README.md documents. *)
Definition documentedFinding : list (string * value) :=
  [("title", VStr "Issue title");
   ("severity", VStr "high|medium|low");
   ("description", VStr "Detailed description");
   ("location", VStr "Line 5");
   ("code", VStr "problematic code snippet");
   ("suggestion", VStr "How to fix it")].

(** All the findings of a report. *)
Definition findingsOf (r : report) : list finding :=
  issues r ++ security r ++ performance r.

(** The number of findings of a report with a given severity. *)
Definition severityCount (sev : string) (r : report) : nat :=
  List.length (filter (fun f => severity f =? sev) (findingsOf r)).

(** ** Sample data *)

(** A response in the format that the documentation of the provider gives,
    with alternate field names in some findings. *)
Definition sampleResponse : value :=
  VObj [("issues",
         VArr [VObj [("title", VStr "Unused variable");
                     ("severity", VStr "HIGH");
                     ("description", VStr "x is never read");
                     ("location", VStr "Line 5");
                     ("codeSnippet", VStr "let x = 1;");
                     ("recommendation", VStr "Remove x")];
               VObj [("message", VStr "Missing semicolon");
                     ("severity", VStr "Low");
                     ("details", VStr "Statement is not terminated");
                     ("line", VNum (mkNumber false "7"));
                     ("fix", VStr "Add a semicolon")]]);
        ("security",
         VArr [VObj [("title", VStr "Use of eval");
                     ("severity", VStr "high")]]);
        ("optimizedCode", VStr "let y = 2;")].

(** A response with one finding that has a title and no severity. *)
Definition partialResponse : value :=
  VObj [("issues", VArr [VObj [("title", VStr "Unused variable")]])].

(** The code of the example: two lines. *)
Definition exampleCode : string :=
"var total = 0;
for (var i = 0; i < items.length; i++) { total = total + items[i].price; }".

(** * Properties *)

(** ** Tactics *)

(** Case analysis on the first computation of a chain of [bind]s. *)
Ltac step_bind :=
  match goal with
  | H : context [bind ?c _] |- _ =>
      let E := fresh "E" in
      destruct c eqn:E; cbn [bind] in *; try discriminate H
  end.

Ltac step_binds := repeat step_bind.

(** ** The primitives on concrete values *)

Example toLowerCase_high : toLowerCase "HiGH" = "high".
Proof. reflexivity. Qed.

Example trim_both_ends :
  trim (String (ascii_of_nat 9) "  let x = 1;  ") = "let x = 1;".
Proof. reflexivity. Qed.

Example toString_array :
  toString (VArr [VNum (mkNumber false "1"); VNull;
                  VArr [VNum (mkNumber false "-2.5"); VStr "a"]; VObj []])
  = OK "1,,-2.5,a,[object Object]".
Proof. reflexivity. Qed.

Example toString_own_property :
  toString (VArr [VStr "a"; VObj [("toString", VNum (mkNumber false "1"))]])
  = Throw TypeError.
Proof. reflexivity. Qed.

(** A finding without a location whose line cannot be printed. *)
Example transformIssue_line_raises :
  transformIssue (VObj [("severity", VStr "low");
                        ("line", VObj [("toString", VNum (mkNumber false "1"))])])
  = Throw TypeError.
Proof. reflexivity. Qed.

Example transformIssue_fallbacks :
  transformIssue (VObj [("message", VStr "m"); ("severity", VStr "LOW");
                        ("line", VNum (mkNumber false "12"))])
  = OK {| title := VStr "m"; severity := "low"; description := VUndefined;
          location := VStr "Line 12"; code := VStr "";
          suggestion := VStr "" |}.
Proof. reflexivity. Qed.

(** ** The response normalizer *)

Lemma mapM_length {X Y} (f : X -> result Y) (l : list X) (l' : list Y) :
  mapM f l = OK l' -> List.length l' = List.length l.
Proof.
  revert l'.
  induction l as [|x l IH]; intros l' H; cbn in H.
  - injection H as <-. reflexivity.
  - destruct (f x) as [y|]; cbn in H; [|discriminate].
    destruct (mapM f l) as [ys|]; cbn in H; [|discriminate].
    injection H as <-. cbn. f_equal. apply IH. reflexivity.
Qed.

Lemma mapM_Forall {X Y} (f : X -> result Y) (l : list X) :
  Forall (fun x => exists y, f x = OK y) l -> exists l', mapM f l = OK l'.
Proof.
  induction 1 as [|x l [y Hy] _ [l' Hl']]; cbn.
  - eexists. reflexivity.
  - rewrite Hy, Hl'. cbn. eexists. reflexivity.
Qed.

Lemma transformIssues_length (v : value) (l : list finding) (n : nat) :
  transformIssues v = OK l -> lengthOf v = OK n -> List.length l = n.
Proof.
  destruct v; cbn; try discriminate.
  intros H Hn. injection Hn as <-. eapply mapM_length. exact H.
Qed.

(** C9.  In a report that [transformResponse] returns, each count of the
    summary is the length of its sequence of findings: [issuesCount] of
    [issues], [securityCount] of [security], [optimizationsCount] of
    [performance]. *)
Theorem transformResponse_counts (apiResponse : value) (r : report) :
  transformResponse apiResponse = OK r ->
  issuesCount (stats r) = List.length (issues r) /\
  securityCount (stats r) = List.length (security r) /\
  optimizationsCount (stats r) = List.length (performance r).
Proof.
  unfold transformResponse. intros H. step_binds.
  injection H as <-. cbn.
  repeat split; symmetry; eapply transformIssues_length; eassumption.
Qed.

(** C4.  A response object in which [issues], [security], [performance] and
    [optimizedCode] are all absent is normalized to the empty report: three
    empty sequences, the empty string, three counts of zero and the grade
    A+. *)
Theorem transformResponse_minimal (fields : list (string * value)) :
  lookup "issues" fields = None ->
  lookup "security" fields = None ->
  lookup "performance" fields = None ->
  lookup "optimizedCode" fields = None ->
  transformResponse (VObj fields) = OK emptyReport.
Proof.
  intros Hi Hs Hp Ho.
  unfold transformResponse, calculateQualityScore, totalIssues,
    countSeverity, get.
  rewrite Hi, Hs, Hp, Ho. reflexivity.
Qed.

Lemma transformResponse_minimal_witness :
  transformResponse (VObj [("requestId", VStr "r-1")]) = OK emptyReport.
Proof.
  apply transformResponse_minimal; reflexivity.
Defined.

Lemma transformResponse_counts_witness :
  exists r,
    transformResponse sampleResponse = OK r /\
    issuesCount (stats r) = List.length (issues r) /\
    securityCount (stats r) = List.length (security r) /\
    optimizationsCount (stats r) = List.length (performance r).
Proof.
  eexists. split.
  - reflexivity.
  - apply (transformResponse_counts sampleResponse). reflexivity.
Defined.

(** What [transformResponse] makes of the sample: the severities in lower
    case, the alternate names and the fallbacks in place, the grade C+ for
    two findings of high severity. *)
Example transformResponse_sample :
  transformResponse sampleResponse =
  OK {| issues :=
          [ {| title := VStr "Unused variable";
               severity := "high";
               description := VStr "x is never read";
               location := VStr "Line 5";
               code := VStr "let x = 1;";
               suggestion := VStr "Remove x" |};
            {| title := VStr "Missing semicolon";
               severity := "low";
               description := VStr "Statement is not terminated";
               location := VStr "Line 7";
               code := VStr "";
               suggestion := VStr "Add a semicolon" |} ];
        security :=
          [ {| title := VStr "Use of eval";
               severity := "high";
               description := VUndefined;
               location := VStr "Line Unknown";
               code := VStr "";
               suggestion := VStr "" |} ];
        performance := [];
        optimized := VStr "let y = 2;";
        stats := {| issuesCount := 2;
                    securityCount := 1;
                    optimizationsCount := 0;
                    qualityScore := Cplus |} |}.
Proof. reflexivity. Qed.

(** *** Where normalization raises, and where it cannot *)

Lemma get_of_findingOk (issue : value) (k : string) :
  findingOk issue -> exists v, get issue k = OK v.
Proof.
  intros (s & loc & line & Hs & _).
  destruct issue as [| | b | n | s' | l | fields]; cbn in *;
    try discriminate; eauto.
  destruct (lookup k fields); eauto.
Qed.

Lemma transformIssue_ok (issue : value) :
  findingOk issue -> exists f, transformIssue issue = OK f.
Proof.
  intros H. pose proof H as (sv & loc & line & Hsv & Hloc & Hline & Hprint).
  unfold transformIssue, orElse.
  destruct (get_of_findingOk issue "title" H) as [t ->].
  destruct (get_of_findingOk issue "message" H) as [m ->].
  destruct (get_of_findingOk issue "description" H) as [d ->].
  destruct (get_of_findingOk issue "details" H) as [d' ->].
  destruct (get_of_findingOk issue "codeSnippet" H) as [c ->].
  destruct (get_of_findingOk issue "recommendation" H) as [r ->].
  destruct (get_of_findingOk issue "fix" H) as [x ->].
  rewrite Hsv, Hloc, Hline. cbn.
  destruct Hprint as [Ht | [text Htext]].
  - rewrite Ht.
    destruct (truthy t), (truthy d), (truthy r); cbn; eauto.
  - rewrite Htext.
    destruct (truthy t), (truthy d), (truthy loc), (truthy r); cbn; eauto.
Qed.

Lemma hasSeverity_ok (severity : string) (issue : value) :
  findingOk issue -> exists b, hasSeverity severity issue = OK b.
Proof.
  intros (s & loc & line & Hs & _). unfold hasSeverity. rewrite Hs. cbn. eauto.
Qed.

Lemma collectionOk_array (x : value) :
  collectionOk x ->
  exists l, js_or x (VArr []) = VArr l /\ Forall findingOk l.
Proof.
  unfold js_or. intros [Hf | (l & -> & Hl)].
  - rewrite Hf. exists []. split; [reflexivity | constructor].
  - exists l. split; [reflexivity | assumption].
Qed.

(** For a well-formed response the grade is [scoreOf] of the number of
    findings of high severity and of the number of findings. *)
Lemma calculateQualityScore_ok (apiResponse : value) :
  responseOk apiResponse ->
  exists h t,
    countSeverity apiResponse "high" = OK h /\ h <= t /\
    calculateQualityScore apiResponse = OK (scoreOf h t).
Proof.
  intros (i & s & p & Hi & Hs & Hp & Ci & Cs & Cp).
  destruct (collectionOk_array i Ci) as (li & Ei & Fi).
  destruct (collectionOk_array s Cs) as (ls & Es & Fs).
  destruct (collectionOk_array p Cp) as (lp & Ep & Fp).
  assert (Fall : Forall findingOk (li ++ ls ++ lp))
    by (repeat (apply Forall_app; split); assumption).
  destruct (mapM_Forall (hasSeverity "high") _
              (Forall_impl _ (hasSeverity_ok "high") Fall)) as [kh Hkh].
  destruct (mapM_Forall (hasSeverity "medium") _
              (Forall_impl _ (hasSeverity_ok "medium") Fall)) as [km Hkm].
  exists (countTrue kh), (List.length li + List.length ls + List.length lp).
  assert (Hcount : countSeverity apiResponse "high" = OK (countTrue kh)).
  { unfold countSeverity. rewrite Hi, Hs, Hp. cbn [bind].
    rewrite Ei, Es, Ep. cbn [spread bind]. rewrite Hkh. reflexivity. }
  split; [exact Hcount|]. split.
  - unfold countTrue.
    apply Nat.le_trans with (List.length kh); [apply filter_length_le|].
    rewrite (mapM_length _ _ _ Hkh), !length_app. lia.
  - unfold calculateQualityScore, totalIssues. rewrite Hcount.
    unfold countSeverity. rewrite Hi, Hs, Hp. cbn [bind].
    rewrite Ei, Es, Ep. cbn [lengthOf spread bind]. rewrite Hkm. reflexivity.
Qed.

(** Normalization does not raise on a well-formed response, whichever
    collections and whichever fields other than the severity are missing. *)
Lemma transformResponse_ok (apiResponse : value) :
  responseOk apiResponse -> exists r, transformResponse apiResponse = OK r.
Proof.
  intros Hok.
  destruct (calculateQualityScore_ok apiResponse Hok) as (h & t & _ & _ & Hq).
  destruct Hok as (i & s & p & Hi & Hs & Hp & Ci & Cs & Cp).
  destruct (collectionOk_array i Ci) as (li & Ei & Fi).
  destruct (collectionOk_array s Cs) as (ls & Es & Fs).
  destruct (collectionOk_array p Cp) as (lp & Ep & Fp).
  destruct (mapM_Forall transformIssue li
              (Forall_impl _ transformIssue_ok Fi)) as [ti Hti].
  destruct (mapM_Forall transformIssue ls
              (Forall_impl _ transformIssue_ok Fs)) as [ts Hts].
  destruct (mapM_Forall transformIssue lp
              (Forall_impl _ transformIssue_ok Fp)) as [tp Htp].
  assert (Ho : exists o, get apiResponse "optimizedCode" = OK o).
  { destruct apiResponse; cbn in *; try discriminate; eauto.
    destruct (lookup "optimizedCode" fields); eauto. }
  destruct Ho as [o Ho].
  unfold transformResponse. rewrite Hi, Hs, Hp, Ho, Hq. cbn [bind].
  rewrite Ei, Es, Ep. cbn [transformIssues lengthOf].
  rewrite Hti, Hts, Htp. cbn [bind]. eauto.
Qed.

(** C1.  The provider answers with one finding that has a title and no
    severity: [issue.severity.toLowerCase()] raises a TypeError,
    [transformResponse] returns no report, and [analyzeCode], whose request
    succeeded at the first attempt, fails as a whole. *)
Theorem transformResponse_missing_severity :
  transformIssues (VArr [VObj [("title", VStr "Unused variable")]])
    = Throw TypeError /\
  transformResponse partialResponse = Throw TypeError /\
  fst (analyzeCode
         (fun _ _ _ =>
            Responded {| status := 200; statusText := "OK";
                         json := OK partialResponse |})
         (constructor (CONFIG None))
         (VStr "let x = 1;") (VStr "javascript") [])
    = Throw (Error "Failed to analyze code. Please try again.").
Proof. split; [reflexivity | split; reflexivity]. Qed.

(** ** The quality score *)

Ltac cases_nat :=
  repeat match goal with
    | |- context [(?a =? ?b)%nat] => destruct (Nat.eqb_spec a b)
    | |- context [(?a <=? ?b)%nat] => destruct (Nat.leb_spec a b)
    end.

Lemma scoreOf_zero (h : nat) : scoreOf h 0 = Aplus.
Proof. reflexivity. Qed.

Lemma scoreOf_monotonic (hA tA hB tB : nat) :
  hB <= hA -> tB <= tA -> grade_le (scoreOf hA tA) (scoreOf hB tB).
Proof.
  intros Hh Ht. unfold grade_le, scoreOf.
  cases_nat; cbn [andb gradeRank]; lia.
Qed.

Lemma hasSeverity_any (s1 s2 : string) (issue : value) (b : bool) :
  hasSeverity s1 issue = OK b -> exists b', hasSeverity s2 issue = OK b'.
Proof.
  unfold hasSeverity. intros H. step_binds. eauto.
Qed.

Lemma mapM_hasSeverity_any (s1 s2 : string) (l : list value) (k : list bool) :
  mapM (hasSeverity s1) l = OK k -> exists k', mapM (hasSeverity s2) l = OK k'.
Proof.
  revert k. induction l as [|x l IH]; intros k H; cbn in *.
  - eauto.
  - destruct (hasSeverity s1 x) as [b|] eqn:Hb; cbn in H; [|discriminate].
    destruct (mapM (hasSeverity s1) l) as [k1|]; cbn in H; [|discriminate].
    destruct (hasSeverity_any s1 s2 x _ Hb) as [b' ->].
    destruct (IH _ eq_refl) as [k' ->]. cbn. eauto.
Qed.

Lemma countSeverity_any (s1 s2 : string) (a : value) (n : nat) :
  countSeverity a s1 = OK n -> exists m, countSeverity a s2 = OK m.
Proof.
  unfold countSeverity. intros H. step_binds.
  match goal with
  | E : mapM _ _ = OK _ |- _ =>
      destruct (mapM_hasSeverity_any s1 s2 _ _ E) as [k' ->]
  end.
  cbn. eauto.
Qed.

Lemma spread_length (x : value) (l : list value) (n : nat) :
  spread x = OK l -> lengthOf x = OK n -> List.length l = n.
Proof.
  destruct x; cbn; try discriminate; intros H Hn;
    injection H as <-; injection Hn as <-.
  - rewrite length_map. clear. induction s; cbn; congruence.
  - reflexivity.
Qed.

(** The number of findings of high severity is at most the number of
    findings. *)
Lemma countSeverity_le_total (a : value) (sev : string) (h t : nat) :
  countSeverity a sev = OK h -> totalIssues a = OK t -> h <= t.
Proof.
  unfold countSeverity, totalIssues. intros Hh Ht.
  destruct (get a "issues") as [i|]; cbn [bind] in *; [|discriminate].
  destruct (get a "security") as [s|]; cbn [bind] in *.
  2: { destruct (spread (js_or i (VArr []))); discriminate. }
  destruct (get a "performance") as [p|]; cbn [bind] in *.
  2: { destruct (spread (js_or i (VArr []))); cbn in Hh; [|discriminate].
       destruct (spread (js_or s (VArr []))); discriminate. }
  destruct (spread (js_or i (VArr []))) as [xs|] eqn:Exs;
    cbn [bind] in Hh; [|discriminate].
  destruct (spread (js_or s (VArr []))) as [ys|] eqn:Eys;
    cbn [bind] in Hh; [|discriminate].
  destruct (spread (js_or p (VArr []))) as [zs|] eqn:Ezs;
    cbn [bind] in Hh; [|discriminate].
  destruct (mapM (hasSeverity sev) (xs ++ ys ++ zs)) as [kept|] eqn:Ek;
    cbn [bind] in Hh; [|discriminate].
  destruct (lengthOf (js_or i (VArr []))) as [ni|] eqn:Eni;
    cbn [bind] in Ht; [|discriminate].
  destruct (lengthOf (js_or s (VArr []))) as [ns|] eqn:Ens;
    cbn [bind] in Ht; [|discriminate].
  destruct (lengthOf (js_or p (VArr []))) as [np|] eqn:Enp;
    cbn [bind] in Ht; [|discriminate].
  injection Hh as <-. injection Ht as <-.
  unfold countTrue.
  apply Nat.le_trans with (List.length kept); [apply filter_length_le|].
  rewrite (mapM_length _ _ _ Ek), !length_app.
  rewrite (spread_length _ _ _ Exs Eni), (spread_length _ _ _ Eys Ens),
    (spread_length _ _ _ Ezs Enp).
  lia.
Qed.

(** The grade of a response is [scoreOf] of its two counts. *)
Lemma calculateQualityScore_scoreOf (a : value) (h t : nat) :
  countSeverity a "high" = OK h -> totalIssues a = OK t ->
  calculateQualityScore a = OK (scoreOf h t).
Proof.
  intros Hh Ht. unfold calculateQualityScore. rewrite Ht, Hh. cbn [bind].
  destruct (countSeverity_any "high" "medium" a h Hh) as [m ->].
  reflexivity.
Qed.

Lemma mapM_app {X Y} (f : X -> result Y) (l1 l2 : list X) (k1 k2 : list Y) :
  mapM f l1 = OK k1 -> mapM f l2 = OK k2 -> mapM f (l1 ++ l2) = OK (k1 ++ k2).
Proof.
  revert k1. induction l1 as [|x l1 IH]; intros k1 H1 H2; cbn in *.
  - injection H1 as <-. exact H2.
  - destruct (f x) as [y|]; cbn in *; [|discriminate].
    destruct (mapM f l1) as [ys|]; cbn in *; [|discriminate].
    injection H1 as <-. rewrite (IH _ eq_refl H2). reflexivity.
Qed.

Lemma mapM_repeat {X Y} (f : X -> result Y) (x : X) (y : Y) (n : nat) :
  f x = OK y -> mapM f (repeat x n) = OK (repeat y n).
Proof.
  intros H. induction n as [|n IH]; cbn; [reflexivity|].
  rewrite H, IH. reflexivity.
Qed.

Lemma countTrue_repeat (h m : nat) :
  countTrue (repeat true h ++ repeat false m) = h.
Proof.
  unfold countTrue. rewrite filter_app, length_app.
  replace (filter (fun b : bool => b) (repeat false m)) with (@nil bool)
    by (induction m; cbn; auto).
  replace (filter (fun b : bool => b) (repeat true h)) with (repeat true h)
    by (induction h; cbn; congruence).
  rewrite repeat_length. cbn. lia.
Qed.

(** Every pair of counts is the pair of some response. *)
Lemma responseWith_counts (h t : nat) :
  h <= t ->
  countSeverity (responseWith h t) "high" = OK h /\
  totalIssues (responseWith h t) = OK t.
Proof.
  intros Hle. unfold countSeverity, totalIssues, responseWith.
  cbn [get lookup String.eqb Ascii.eqb Bool.eqb bind js_or truthy spread
       lengthOf app].
  rewrite !app_nil_r.
  rewrite (mapM_app _ _ _ (repeat true h) (repeat false (t - h))).
  - cbn [bind]. rewrite countTrue_repeat, length_app, !repeat_length.
    cbn [List.length]. split; f_equal; lia.
  - apply mapM_repeat. reflexivity.
  - apply mapM_repeat. reflexivity.
Qed.

(** C2.  The grade is a function of the number of findings of high
    severity and of the number of findings: every response with the counts
    [(h, t)] gets the grade [scoreOf h t], and every pair with [h <= t] is
    the pair of a response; no finding gives A+; and when the counts of A
    are at least those of B, the grade of A is at most the grade of B in
    the order A+ > A > B+ > B > C+ > C. *)
Theorem calculateQualityScore_total_monotonic (hA tA hB tB : nat) :
  hA <= tA -> hB <= tB -> hB <= hA -> tB <= tA ->
  (forall a, countSeverity a "high" = OK hA -> totalIssues a = OK tA ->
             calculateQualityScore a = OK (scoreOf hA tA)) /\
  (forall b, countSeverity b "high" = OK hB -> totalIssues b = OK tB ->
             calculateQualityScore b = OK (scoreOf hB tB)) /\
  calculateQualityScore (responseWith hA tA) = OK (scoreOf hA tA) /\
  calculateQualityScore (responseWith hB tB) = OK (scoreOf hB tB) /\
  (tB = 0 -> scoreOf hB tB = Aplus) /\
  grade_le (scoreOf hA tA) (scoreOf hB tB).
Proof.
  intros HA HB Hh Ht.
  split; [intros a; apply calculateQualityScore_scoreOf|].
  split; [intros b; apply calculateQualityScore_scoreOf|].
  split; [apply calculateQualityScore_scoreOf; apply responseWith_counts; exact HA|].
  split; [apply calculateQualityScore_scoreOf; apply responseWith_counts; exact HB|].
  split; [intros ->; apply scoreOf_zero|].
  apply scoreOf_monotonic; assumption.
Qed.

Lemma calculateQualityScore_total_monotonic_witness :
  calculateQualityScore (responseWith 3 9) = OK C /\
  calculateQualityScore (responseWith 1 4) = OK B /\
  grade_le (scoreOf 3 9) (scoreOf 1 4).
Proof.
  destruct (calculateQualityScore_total_monotonic 3 9 1 4)
    as (_ & _ & HA & HB & _ & Hle); [lia | lia | lia | lia |].
  split; [exact HA | split; [exact HB | exact Hle]].
Defined.

(** ** Input validation *)

Lemma trimStartChars_nil (l : list ascii) :
  forallb isWhiteSpace l = true -> trimStartChars l = [].
Proof.
  induction l as [|c l IH]; cbn; [reflexivity|].
  destruct (isWhiteSpace c); cbn; [exact IH | discriminate].
Qed.

Lemma trimStartChars_cons (l : list ascii) :
  forallb isWhiteSpace l = false ->
  exists c l', trimStartChars l = c :: l' /\ isWhiteSpace c = false.
Proof.
  induction l as [|c l IH]; cbn; [discriminate|].
  destruct (isWhiteSpace c) eqn:Hc; cbn; [exact IH | eauto].
Qed.

Lemma trimStartChars_last (l : list ascii) (c : ascii) :
  isWhiteSpace c = false -> trimStartChars (l ++ [c]) <> [].
Proof.
  intros Hc. induction l as [|d l IH]; cbn.
  - rewrite Hc. discriminate.
  - destruct (isWhiteSpace d); [exact IH | discriminate].
Qed.

Lemma length_string_of_list_ascii (l : list ascii) :
  String.length (string_of_list_ascii l) = List.length l.
Proof. induction l; cbn; congruence. Qed.

(** [code.trim().length === 0] holds of the blank strings and of no
    other. *)
Lemma trim_length_zero (s : string) :
  (String.length (trim s) =? 0)%nat = blank s.
Proof.
  unfold trim, blank. rewrite length_string_of_list_ascii, length_rev.
  destruct (forallb isWhiteSpace (list_ascii_of_string s)) eqn:Hb.
  - rewrite (trimStartChars_nil _ Hb). reflexivity.
  - destruct (trimStartChars_cons _ Hb) as (c & l' & -> & Hc). cbn [rev].
    pose proof (trimStartChars_last (rev l') c Hc) as Hne.
    destruct (trimStartChars (rev l' ++ [c])); [contradiction | reflexivity].
Qed.

(** What [validateInput] returns for a string and a language that
    converts to [text]: one message for each constraint that is violated,
    in the order of the tests. *)
Lemma validateInput_string (s : string) (language : value) (text : string) :
  toString language = OK text ->
  validateInput (VStr s) language =
  OK (let errors :=
        (if blank s then [errEmpty] else []) ++
        (if (50000 <? Z.of_nat (String.length s))%Z then [errTooLong] else []) ++
        (if includesLanguage language then [] else [errUnsupported text])
      in {| isValid := (List.length errors =? 0)%nat; errors := errors |}).
Proof.
  intros Htext.
  unfold validateInput, callTrim, errEmpty, errTooLong, errUnsupported.
  destruct s as [|c s].
  - cbn. destruct (includesLanguage language); cbn; [reflexivity|].
    rewrite Htext. reflexivity.
  - cbn [truthy String.eqb negb bind tooLong].
    rewrite trim_length_zero.
    destruct (blank (String c s)),
      (50000 <? Z.of_nat (String.length (String c s)))%Z,
      (includesLanguage language); cbn [negb bind];
      rewrite ?Htext; reflexivity.
Qed.

(** A language that has no conversion to a string is not a supported one,
    and its message cannot be built. *)
Lemma validateInput_string_raises (s : string) (language : value) (e : exn) :
  toString language = Throw e ->
  validateInput (VStr s) language = Throw e.
Proof.
  intros Htext.
  assert (Hinc : includesLanguage language = false).
  { destruct language; try reflexivity. discriminate Htext. }
  unfold validateInput, callTrim.
  destruct s as [|c s].
  - cbn. rewrite Hinc. cbn. rewrite Htext. reflexivity.
  - cbn [truthy String.eqb negb bind tooLong].
    rewrite trim_length_zero, Hinc. cbn [negb bind].
    destruct (blank (String c s)),
      (50000 <? Z.of_nat (String.length (String c s)))%Z;
      cbn [bind]; rewrite Htext; reflexivity.
Qed.

(** A falsy code that is not a string and has no length: only the
    emptiness is reported. *)
Example validateInput_zero :
  validateInput (VNum (mkNumber true "0")) (VStr "go")
  = OK {| isValid := false; errors := [errEmpty] |}.
Proof. reflexivity. Qed.

(** A language that is a number is printed as the number is. *)
Example validateInput_number_language :
  validateInput (VStr "x") (VNum (mkNumber false "1e+21"))
  = OK {| isValid := false; errors := ["Unsupported language: 1e+21"] |}.
Proof. reflexivity. Qed.

Example validateInput_accepts :
  validateInput (VStr exampleCode) (VStr "javascript")
  = OK {| isValid := true; errors := [] |}.
Proof. reflexivity. Qed.

(** C6.  [validateInput] names every constraint that a string violates:
    blank code gives the message of emptiness, code of more than 50000
    characters the message of length, a language that is not supported its
    message, each whatever the other tests say, and the result is not
    valid.  The language is a string, or any value that converts to one,
    [text] being its conversion. *)
Theorem validateInput_reports_all (s : string) (language : value)
    (text : string) :
  toString language = OK text ->
  exists v,
    validateInput (VStr s) language = OK v /\
    (blank s = true -> isValid v = false /\ In errEmpty (errors v)) /\
    ((50000 < Z.of_nat (String.length s))%Z ->
       isValid v = false /\ In errTooLong (errors v)) /\
    (includesLanguage language = false ->
       isValid v = false /\ In (errUnsupported text) (errors v)) /\
    errors v =
      (if blank s then [errEmpty] else []) ++
      (if (50000 <? Z.of_nat (String.length s))%Z then [errTooLong] else []) ++
      (if includesLanguage language then [] else [errUnsupported text]).
Proof.
  intros Htext.
  eexists. split; [apply (validateInput_string s language text Htext)|].
  cbn [isValid errors].
  split; [|split; [|split; [|reflexivity]]].
  - intros Hb. rewrite Hb. split; [reflexivity | left; reflexivity].
  - intros Hl. apply Z.ltb_lt in Hl. rewrite Hl. split.
    + destruct (blank s); reflexivity.
    + apply in_or_app. right. left. reflexivity.
  - intros Hu. rewrite Hu. split.
    + rewrite !length_app. cbn [List.length]. apply Nat.eqb_neq. lia.
    + apply in_or_app. right. apply in_or_app. right. left. reflexivity.
Qed.

Lemma validateInput_reports_all_witness :
  exists v,
    validateInput (VStr (spaces (Z.to_nat 50001))) (VStr "cobol") = OK v /\
    isValid v = false /\
    errors v = [errEmpty; errTooLong; errUnsupported "cobol"].
Proof.
  destruct (validateInput_reports_all (spaces (Z.to_nat 50001)) (VStr "cobol")
              "cobol" eq_refl)
    as (v & Hv & He & _ & _ & Hall).
  exists v. split; [exact Hv|]. split.
  - apply He. vm_compute. reflexivity.
  - rewrite Hall. vm_compute. reflexivity.
Defined.

(** A language that is an object with a property [toString] of its own:
    the message of the unsupported language cannot be built, and
    [validateInput] raises for a code that is a string.  And a code that is
    no string, for which it returns. *)
Lemma validateInput_language_raises :
  validateInput (VStr "let x = 1;")
    (VObj [("toString", VNum (mkNumber false "1"))])
  = Throw TypeError /\
  validateInput (VNum (mkNumber true "0")) (VStr "go")
  = OK {| isValid := false; errors := [errEmpty] |}.
Proof. split; reflexivity. Qed.

(** C10.  For a string and a language that converts to a string, as every
    string does, [validateInput] returns, and the result is valid exactly
    when its list of errors is empty.  A string is not needed for that:
    [false] and [0] are taken as the empty string is.  For [undefined] and
    for [null] the emptiness test adds its message and [code.length] raises
    next, whatever the language. *)
Theorem validateInput_returns (s : string) (language : value) (text : string) :
  toString language = OK text ->
  (exists v,
     validateInput (VStr s) language = OK v /\
     (isValid v = true <-> errors v = [])) /\
  validateInput (VBool false) language = validateInput (VStr "") language /\
  validateInput (VNum (mkNumber true "0")) language
    = validateInput (VStr "") language /\
  validateInput VUndefined language = Throw TypeError /\
  validateInput VNull language = Throw TypeError.
Proof.
  intros Htext.
  split; [|split; [reflexivity | split; [reflexivity | split; reflexivity]]].
  eexists. split; [apply (validateInput_string s language text Htext)|].
  cbn [isValid errors].
  rewrite Nat.eqb_eq. split.
  - apply length_zero_iff_nil.
  - intros ->. reflexivity.
Qed.

Lemma validateInput_returns_witness :
  exists v,
    validateInput (VStr exampleCode) (VArr [VStr "java"; VNull]) = OK v /\
    (isValid v = true <-> errors v = []).
Proof.
  apply (validateInput_returns exampleCode (VArr [VStr "java"; VNull]) "java,").
  reflexivity.
Defined.

(** ** The request dispatcher *)

Section DispatcherProperties.

Variable provider : Provider.
Variable this : CodeAnalysisAPI.
Variable url : string.
Variable init : RequestInit.

Lemma fetchCount_app (w1 w2 : world) :
  fetchCount (w1 ++ w2) = fetchCount w1 + fetchCount w2.
Proof. unfold fetchCount. rewrite filter_app, length_app. reflexivity. Qed.

Lemma consoleErrors_app (w1 w2 : world) :
  consoleErrors (w1 ++ w2) = consoleErrors w1 ++ consoleErrors w2.
Proof. unfold consoleErrors. apply flat_map_app. Qed.

(** One attempt is one call of [fetch], whatever its outcome. *)
Lemma attemptOnce_success (w : world) (data : value) :
  succeeds (provider url init (fetchCount w)) = Some data ->
  attemptOnce provider url init w = (OK data, w ++ [EvFetch url init]).
Proof.
  unfold attemptOnce, bindM, fetch, succeeds. intros H.
  destruct (provider url init (fetchCount w)) as [e|r]; [discriminate|].
  destruct (ok r); cbn; [|discriminate].
  unfold lift. destruct (json r); [|discriminate].
  injection H as <-. reflexivity.
Qed.

Lemma attemptOnce_failure (w : world) :
  succeeds (provider url init (fetchCount w)) = None ->
  exists e, attemptOnce provider url init w = (Throw e, w ++ [EvFetch url init]).
Proof.
  unfold attemptOnce, bindM, fetch, succeeds. intros H.
  destruct (provider url init (fetchCount w)) as [e|r]; [eauto|].
  destruct (ok r); cbn; [|unfold throwM; eauto].
  unfold lift. destruct (json r); [discriminate | eauto].
Qed.

(** The loop, when [k] attempts fail and the next one succeeds. *)
Lemma retryLoop_success (data : value) (k : nat) :
  forall (turns : nat) (attempt : Z) (lastError : exn) (w : world),
    k < turns ->
    (attempt + Z.of_nat k <= maxRetries (retryConfig this))%Z ->
    (forall j, j < k ->
               succeeds (provider url init (fetchCount w + j)) = None) ->
    succeeds (provider url init (fetchCount w + k)) = Some data ->
    retryLoop provider this turns url init attempt lastError w =
    (OK data,
     w ++ retryTrace url init (retryDelay (retryConfig this)) attempt k).
Proof.
  induction k as [|k IH]; intros turns attempt lastError w Hturns Hmax Hfail Hok;
    (destruct turns as [|turns]; [lia|]); cbn [retryLoop retryTrace].
  - unfold tryCatch. rewrite Nat.add_0_r in Hok.
    rewrite (attemptOnce_success w data Hok). reflexivity.
  - unfold tryCatch.
    destruct (attemptOnce_failure w) as [e He].
    { rewrite <- (Nat.add_0_r (fetchCount w)). apply Hfail. lia. }
    rewrite He.
    replace (attempt <? maxRetries (retryConfig this))%Z with true
      by (symmetry; apply Z.ltb_lt; lia).
    unfold bindM at 1, delay.
    rewrite (IH turns (attempt + 1)%Z e).
    + rewrite <- !app_assoc. reflexivity.
    + lia.
    + lia.
    + intros j Hj. rewrite !fetchCount_app. cbn.
      replace (fetchCount w + 1 + 0 + j) with (fetchCount w + S j) by lia.
      apply Hfail. lia.
    + rewrite !fetchCount_app. cbn.
      replace (fetchCount w + 1 + 0 + k) with (fetchCount w + S k) by lia.
      exact Hok.
Qed.

(** The loop, when every attempt that is left fails: it raises after
    one call of [fetch] for each turn, and logs nothing. *)
Lemma retryLoop_exhausted :
  forall (turns : nat) (attempt : Z) (lastError : exn) (w : world),
    (forall j, j < turns ->
               succeeds (provider url init (fetchCount w + j)) = None) ->
    exists e w',
      retryLoop provider this turns url init attempt lastError w
        = (Throw e, w') /\
      fetchCount w' = fetchCount w + turns /\
      consoleErrors w' = consoleErrors w.
Proof.
  induction turns as [|turns IH]; intros attempt lastError w Hfail;
    cbn [retryLoop].
  - exists lastError, w. unfold throwM. split; [reflexivity|]. split; [lia|].
    reflexivity.
  - unfold tryCatch.
    destruct (attemptOnce_failure w) as [e He].
    { rewrite <- (Nat.add_0_r (fetchCount w)). apply Hfail. lia. }
    rewrite He. unfold bindM at 1.
    set (w1 := w ++ [EvFetch url init]).
    assert (Hw1 : exists w2,
      (if (attempt <? maxRetries (retryConfig this))%Z
       then delay (retryDelay (retryConfig this) * (attempt + 1))
       else retM tt) w1 = (OK tt, w2) /\
      fetchCount w2 = fetchCount w + 1 /\
      consoleErrors w2 = consoleErrors w).
    { destruct (attempt <? maxRetries (retryConfig this))%Z;
        eexists; (split; [reflexivity|]); subst w1;
        rewrite ?fetchCount_app, ?consoleErrors_app; cbn;
        rewrite ?app_nil_r; split; (lia || reflexivity). }
    destruct Hw1 as (w2 & -> & Hf2 & Hc2).
    destruct (IH (attempt + 1)%Z e w2) as (e' & w' & -> & Hf' & Hc').
    + intros j Hj. rewrite Hf2.
      replace (fetchCount w + 1 + j) with (fetchCount w + S j) by lia.
      apply Hfail. lia.
    + exists e', w'. split; [reflexivity|]. split; [lia | congruence].
Qed.

End DispatcherProperties.

Lemma fetchCount_retryTrace url init d attempt k :
  fetchCount (retryTrace url init d attempt k) = S k.
Proof.
  revert attempt. induction k as [|k IH]; intros attempt; [reflexivity|].
  cbn [retryTrace]. change (S (S k)) with (1 + S k). rewrite <- (IH (attempt + 1)%Z).
  reflexivity.
Qed.

Lemma delaysOf_retryTrace url init d attempt k :
  delaysOf (retryTrace url init d attempt k) =
  map (fun j => d * (attempt + Z.of_nat j))%Z (seq 1 k).
Proof.
  revert attempt. induction k as [|k IH]; intros attempt; [reflexivity|].
  cbn [retryTrace seq map].
  change (delaysOf (?e1 :: EvDelay ?ms :: ?rest)) with (ms :: delaysOf rest).
  rewrite IH. f_equal.
  rewrite <- (seq_shift k 1), map_map. apply map_ext. intros j. f_equal. lia.
Qed.

(** The multiples of a positive delay increase. *)
Lemma delays_increasing (d a : Z) (s k : nat) :
  (0 < d)%Z ->
  Sorted.StronglySorted Z.lt
    (map (fun j => d * (a + Z.of_nat j))%Z (seq s k)).
Proof.
  intros Hd. revert s. induction k as [|k IH]; intros s; cbn [seq map].
  - constructor.
  - constructor; [apply IH|].
    apply Forall_forall. intros x Hx.
    apply in_map_iff in Hx. destruct Hx as (j & <- & Hj).
    apply in_seq in Hj. nia.
Qed.

(** With a base delay of zero the third attempt succeeds after two delays
    of zero: the delays are equal, not increasing. *)
Lemma makeRequest_retry_zero_delay :
  fst (makeRequest (flakyProvider 2 sampleResponse) zeroDelayApi
         "/analyze" (mkInit (Some "POST") None None) [])
    = OK sampleResponse /\
  fetchCount (snd (makeRequest (flakyProvider 2 sampleResponse) zeroDelayApi
                     "/analyze" (mkInit (Some "POST") None None) []))
    = 3 /\
  delaysOf (snd (makeRequest (flakyProvider 2 sampleResponse) zeroDelayApi
                   "/analyze" (mkInit (Some "POST") None None) []))
    = [0; 0]%Z /\
  ~ Sorted.StronglySorted Z.lt
      (delaysOf (snd (makeRequest (flakyProvider 2 sampleResponse)
                        zeroDelayApi
                        "/analyze" (mkInit (Some "POST") None None) []))).
Proof.
  split; [reflexivity|]. split; [reflexivity|]. split; [reflexivity|].
  change (delaysOf _) with [0; 0]%Z. intros Hsorted.
  inversion Hsorted as [|x l _ Hall]; subst.
  inversion Hall as [|y l' Hlt _]; subst. lia.
Qed.

(** C3.  The first [N - 1] attempts fail and attempt [N] succeeds, [N]
    being at most the number of attempts that the configuration allows:
    [makeRequest] returns the data of the attempt that succeeds after
    exactly [N] calls of [fetch]; the delay before retry [k] is
    [retryDelay * k]; the delays increase strictly when [retryDelay] is
    positive. *)
Theorem makeRequest_retry (provider : Provider) (this : CodeAnalysisAPI)
    (endpoint : string) (options : RequestInit) (N : nat) (data : value) :
  1 <= N ->
  (Z.of_nat N <= maxRetries (retryConfig this) + 1)%Z ->
  (forall j, j < N - 1 ->
     succeeds (provider (baseUrl this ++ endpoint)%string
                 (spreadInit (defaultOptions this) options) j) = None) ->
  succeeds (provider (baseUrl this ++ endpoint)%string
              (spreadInit (defaultOptions this) options) (N - 1)) = Some data ->
  fst (makeRequest provider this endpoint options []) = OK data /\
  fetchCount (snd (makeRequest provider this endpoint options [])) = N /\
  delaysOf (snd (makeRequest provider this endpoint options [])) =
    map (fun k => retryDelay (retryConfig this) * Z.of_nat k)%Z
        (seq 1 (N - 1)) /\
  ((0 < retryDelay (retryConfig this))%Z ->
   Sorted.StronglySorted Z.lt
     (delaysOf (snd (makeRequest provider this endpoint options [])))).
Proof.
  intros HN Hmax Hfail Hok. unfold makeRequest.
  rewrite (retryLoop_success provider this _ _ data (N - 1)).
  - cbn [fst snd app].
    rewrite fetchCount_retryTrace, delaysOf_retryTrace.
    split; [reflexivity|]. split; [lia|]. split; [reflexivity|].
    intros Hd. apply delays_increasing. exact Hd.
  - lia.
  - lia.
  - exact Hfail.
  - exact Hok.
Qed.

Lemma makeRequest_retry_witness :
  fst (makeRequest (flakyProvider 2 sampleResponse) (constructor (CONFIG None))
         "/analyze" (mkInit (Some "POST") None None) [])
    = OK sampleResponse /\
  delaysOf (snd (makeRequest (flakyProvider 2 sampleResponse)
                   (constructor (CONFIG None))
                   "/analyze" (mkInit (Some "POST") None None) []))
    = [1000; 2000]%Z /\
  Sorted.StronglySorted Z.lt
    (delaysOf (snd (makeRequest (flakyProvider 2 sampleResponse)
                      (constructor (CONFIG None))
                      "/analyze" (mkInit (Some "POST") None None) []))).
Proof.
  destruct (makeRequest_retry (flakyProvider 2 sampleResponse)
              (constructor (CONFIG None)) "/analyze"
              (mkInit (Some "POST") None None) 3 sampleResponse)
    as (Hr & _ & Hd & Hs).
  - lia.
  - cbn. lia.
  - intros j Hj. destruct j as [|[|j]]; [reflexivity | reflexivity | lia].
  - reflexivity.
  - split; [exact Hr|]. split; [exact Hd|]. apply Hs. reflexivity.
Defined.

(** With the configuration of config.js: up to four attempts, and the
    delays 1000, 2000, 3000. *)
Example makeRequest_config_fourth_attempt :
  makeRequest (flakyProvider 3 sampleResponse) (constructor (CONFIG None))
    "/analyze" (mkInit (Some "POST") None None) []
  = (OK sampleResponse,
     retryTrace "https://api.yourservice.com/v1/analyze"
       (spreadInit (defaultOptions (constructor (CONFIG None)))
          (mkInit (Some "POST") None None))
       1000 0 3).
Proof. reflexivity. Qed.

(** After the last attempt has failed, [analyzeCode] logs the error that
    [makeRequest] raised and raises its own. *)
Lemma analyzeCode_when_exhausted (provider : Provider) (this : CodeAnalysisAPI)
    (code language : value) :
  (forall url init n,
     n < Z.to_nat (maxRetries (retryConfig this) + 1) ->
     succeeds (provider url init n) = None) ->
  exists e w,
    analyzeCode provider this code language [] =
      (Throw (Error "Failed to analyze code. Please try again."),
       w ++ [EvConsoleError "Analysis failed:" e]) /\
    fetchCount w = Z.to_nat (maxRetries (retryConfig this) + 1) /\
    consoleErrors w = [].
Proof.
  intros Hfail. unfold analyzeCode, makeRequest, tryCatch, bindM.
  match goal with
  | |- context [retryLoop provider this ?t ?u ?i ?a ?e []] =>
      destruct (retryLoop_exhausted provider this u i t a e [])
        as (e' & w' & -> & Hf & Hc)
  end.
  - intros j Hj. apply Hfail. exact Hj.
  - exists e', w'. unfold consoleError, throwM. cbn.
    split; [reflexivity|]. split; assumption.
Qed.

(** C5.  Every attempt fails: [analyzeCode] raises one error, with the
    message of failure of the analysis, and returns no report; it has
    called [fetch] once for each attempt that the configuration allows
    and logged the failure once. *)
Theorem analyzeCode_exhaustion (provider : Provider) (this : CodeAnalysisAPI)
    (code language : value) :
  (forall url init n,
     n < Z.to_nat (maxRetries (retryConfig this) + 1) ->
     succeeds (provider url init n) = None) ->
  fst (analyzeCode provider this code language [])
    = Throw (Error "Failed to analyze code. Please try again.") /\
  (forall r, fst (analyzeCode provider this code language []) <> OK r) /\
  List.length (consoleErrors (snd (analyzeCode provider this code language [])))
    = 1 /\
  fetchCount (snd (analyzeCode provider this code language []))
    = Z.to_nat (maxRetries (retryConfig this) + 1).
Proof.
  intros Hfail.
  destruct (analyzeCode_when_exhausted provider this code language Hfail)
    as (e & w & -> & Hf & Hc).
  cbn [fst snd]. rewrite consoleErrors_app, fetchCount_app, Hc, Hf. cbn.
  split; [reflexivity|]. split; [discriminate|]. split; [reflexivity | lia].
Qed.

Lemma analyzeCode_exhaustion_witness :
  fst (analyzeCode deadProvider (constructor (CONFIG None))
         (VStr "let x = 1;") (VStr "javascript") [])
    = Throw (Error "Failed to analyze code. Please try again.") /\
  fetchCount (snd (analyzeCode deadProvider (constructor (CONFIG None))
                     (VStr "let x = 1;") (VStr "javascript") []))
    = 4.
Proof.
  destruct (analyzeCode_exhaustion deadProvider (constructor (CONFIG None))
              (VStr "let x = 1;") (VStr "javascript"))
    as (Hr & _ & _ & Hf).
  - intros url init n Hn. reflexivity.
  - split; [exact Hr | exact Hf].
Defined.

(** ** The mock provider *)

(** C7.  [getMockAnalysisData] returns the same report for any two pairs
    of code and language, and so does the analyze button for any two
    inputs that it accepts. *)
Theorem getMockAnalysisData_constant
    (code1 language1 code2 language2 : value)
    (input1 select1 input2 select2 : string) :
  getMockAnalysisData code1 language1 = getMockAnalysisData code2 language2 /\
  match analyzeClick input1 select1, analyzeClick input2 select2 with
  | Results analysis1, Results analysis2 => analysis1 = analysis2
  | _, _ => True
  end.
Proof.
  split; [reflexivity|].
  unfold analyzeClick.
  destruct (trim input1 =? ""), (trim input2 =? ""); exact I || reflexivity.
Qed.

(** C8.  For the code of the example and the language javascript the
    report has, among its issues, a finding on the use of var, and its
    grade is B+: below the top grade A+ and above the lowest grade C. *)
Theorem example_end_to_end :
  exists analysis,
    analyzeClick exampleCode "javascript" = Results analysis /\
    analysis = getMockAnalysisData (VStr exampleCode) (VStr "javascript") /\
    (exists f,
       In f (issues analysis) /\
       title f = VStr "Using var instead of const/let" /\
       code f = VStr "var total = 0;" /\
       includes "var" "Using var instead of const/let" = true) /\
    qualityScore (stats analysis) = Bplus /\
    qualityScore (stats analysis) <> Aplus /\
    gradeRank C < gradeRank (qualityScore (stats analysis)) < gradeRank Aplus.
Proof.
  eexists. split; [reflexivity|]. split; [reflexivity|]. split.
  - eexists. split; [left; reflexivity|]. repeat split.
  - split; [reflexivity|]. split; [discriminate|]. cbn. lia.
Qed.

(** The grade of the mock report is the grade that [calculateQualityScore]
    gives to its counts: five findings, none of high severity. *)
Example mock_grade_consistent :
  scoreOf 0 5 = qualityScore (stats (getMockAnalysisData VUndefined VUndefined)).
Proof. reflexivity. Qed.

(** * Further properties *)

(** ** The response normalizer: when it returns, and what *)

Lemma transformIssues_inv (v : value) (fs : list finding) :
  transformIssues v = OK fs ->
  exists l, v = VArr l /\ mapM transformIssue l = OK fs.
Proof.
  destruct v; cbn; try discriminate. intros H. eauto.
Qed.

Lemma orElse_inv (a : value) (b : result value) (v : value) :
  orElse a b = OK v ->
  (truthy a = true /\ v = a) \/ (truthy a = false /\ b = OK v).
Proof.
  unfold orElse. destruct (truthy a); intros H.
  - left. injection H as <-. auto.
  - right. auto.
Qed.

Lemma js_or_cases (a b : value) :
  js_or a b = b \/ truthy (js_or a b) = true.
Proof.
  unfold js_or. destruct (truthy a) eqn:Ha; [right; exact Ha | left; reflexivity].
Qed.

(** What [transformIssue] needs and what it gives. *)
Lemma transformIssue_inv (issue : value) (f : finding) :
  transformIssue issue = OK f ->
  exists s,
    get issue "severity" = OK (VStr s) /\
    severity f = toLowerCase s /\
    truthy (location f) = true /\
    (code f = VStr "" \/ truthy (code f) = true) /\
    (suggestion f = VStr "" \/ truthy (suggestion f) = true).
Proof.
  unfold transformIssue. intros H.
  destruct (get issue "title") as [t|]; cbn [bind] in H; [|discriminate].
  destruct (orElse t (get issue "message")) as [ttl|];
    cbn [bind] in H; [|discriminate].
  destruct (get issue "severity") as [sev|] eqn:Hsev;
    cbn [bind] in H; [|discriminate].
  destruct (callToLowerCase sev) as [low|] eqn:Hlow;
    cbn [bind] in H; [|discriminate].
  destruct (get issue "description") as [d|]; cbn [bind] in H; [|discriminate].
  destruct (orElse d (get issue "details")) as [dsc|];
    cbn [bind] in H; [|discriminate].
  destruct (get issue "location") as [loc|]; cbn [bind] in H; [|discriminate].
  match type of H with
  | context [orElse loc ?b] =>
      destruct (orElse loc b) as [lc|] eqn:Hloc;
      cbn [bind] in H; [|discriminate]
  end.
  destruct (get issue "codeSnippet") as [snippet|];
    cbn [bind] in H; [|discriminate].
  destruct (get issue "recommendation") as [rec|];
    cbn [bind] in H; [|discriminate].
  match type of H with
  | context [orElse rec ?b] =>
      destruct (orElse rec b) as [sg|] eqn:Hsg;
      cbn [bind] in H; [|discriminate]
  end.
  injection H as <-. cbn [severity location code suggestion].
  destruct sev; try discriminate Hlow. cbn in Hlow. injection Hlow as <-.
  exists s. split; [reflexivity|]. split; [reflexivity|]. split; [|split].
  - apply orElse_inv in Hloc. destruct Hloc as [[Ht ->] | [_ Hb]]; [exact Ht|].
    destruct (get issue "line") as [line|]; cbn [bind] in Hb; [|discriminate].
    destruct (toString (js_or line (VStr "Unknown"))) as [text|];
      cbn [bind] in Hb; [|discriminate].
    injection Hb as <-. reflexivity.
  - destruct (js_or_cases snippet (VStr "")); auto.
  - apply orElse_inv in Hsg. destruct Hsg as [[Ht ->] | [_ Hb]]; [auto|].
    destruct (get issue "fix") as [fx|]; cbn [bind] in Hb; [|discriminate].
    injection Hb as <-. destruct (js_or_cases fx (VStr "")); auto.
Qed.

Lemma mapM_Forall2 {X Y} (f : X -> result Y) (l : list X) (l' : list Y) :
  mapM f l = OK l' -> Forall2 (fun x y => f x = OK y) l l'.
Proof.
  revert l'. induction l as [|x l IH]; intros l' H; cbn in H.
  - injection H as <-. constructor.
  - destruct (f x) as [y|] eqn:Hy; cbn in H; [|discriminate].
    destruct (mapM f l) as [ys|]; cbn in H; [|discriminate].
    injection H as <-. constructor; [exact Hy | apply IH; reflexivity].
Qed.

Lemma Forall2_Forall_l {X Y} (R : X -> Y -> Prop) (P : X -> Prop) l l' :
  Forall2 R l l' -> (forall x y, R x y -> P x) -> Forall P l.
Proof. induction 1; intros HP; constructor; eauto. Qed.

Lemma Forall2_Forall_r {X Y} (R : X -> Y -> Prop) (P : Y -> Prop) l l' :
  Forall2 R l l' -> (forall x y, R x y -> P y) -> Forall P l'.
Proof. induction 1; intros HP; constructor; eauto. Qed.

(** The steps of [transformResponse] when it returns. *)
Lemma transformResponse_inv (a : value) (r : report) :
  transformResponse a = OK r ->
  exists i s p o li ls lp,
    get a "issues" = OK i /\ get a "security" = OK s /\
    get a "performance" = OK p /\ get a "optimizedCode" = OK o /\
    js_or i (VArr []) = VArr li /\ js_or s (VArr []) = VArr ls /\
    js_or p (VArr []) = VArr lp /\
    mapM transformIssue li = OK (issues r) /\
    mapM transformIssue ls = OK (security r) /\
    mapM transformIssue lp = OK (performance r) /\
    optimized r = js_or o (VStr "") /\
    calculateQualityScore a = OK (qualityScore (stats r)).
Proof.
  unfold transformResponse. intros H.
  destruct (get a "issues") as [i|]; cbn [bind] in H; [|discriminate].
  destruct (transformIssues (js_or i (VArr []))) as [fi|] eqn:Hfi;
    cbn [bind] in H; [|discriminate].
  destruct (get a "security") as [s|]; cbn [bind] in H; [|discriminate].
  destruct (transformIssues (js_or s (VArr []))) as [fs|] eqn:Hfs;
    cbn [bind] in H; [|discriminate].
  destruct (get a "performance") as [p|]; cbn [bind] in H; [|discriminate].
  destruct (transformIssues (js_or p (VArr []))) as [fp|] eqn:Hfp;
    cbn [bind] in H; [|discriminate].
  destruct (get a "optimizedCode") as [o|]; cbn [bind] in H; [|discriminate].
  destruct (lengthOf (js_or i (VArr []))); cbn [bind] in H; [|discriminate].
  destruct (lengthOf (js_or s (VArr []))); cbn [bind] in H; [|discriminate].
  destruct (lengthOf (js_or p (VArr []))); cbn [bind] in H; [|discriminate].
  destruct (calculateQualityScore a) as [q|]; cbn [bind] in H; [|discriminate].
  injection H as <-. cbn.
  destruct (transformIssues_inv _ _ Hfi) as (li & Eli & Hli).
  destruct (transformIssues_inv _ _ Hfs) as (ls & Els & Hls).
  destruct (transformIssues_inv _ _ Hfp) as (lp & Elp & Hlp).
  exists i, s, p, o, li, ls, lp. repeat (split; [first [reflexivity | assumption]|]).
  reflexivity.
Qed.

Lemma collectionOk_of_array (x : value) (l : list value) :
  js_or x (VArr []) = VArr l -> Forall findingOk l -> collectionOk x.
Proof.
  unfold js_or, collectionOk. destruct (truthy x) eqn:Hx; intros E Hl.
  - right. exists l. split; assumption.
  - left. reflexivity.
Qed.

Lemma transformIssue_findingOk (issue : value) (f : finding) :
  transformIssue issue = OK f -> findingOk issue.
Proof.
  unfold transformIssue. intros H.
  destruct (get issue "title") as [t|]; cbn [bind] in H; [|discriminate].
  destruct (orElse t (get issue "message")) as [ttl|];
    cbn [bind] in H; [|discriminate].
  destruct (get issue "severity") as [sev|] eqn:Hsev;
    cbn [bind] in H; [|discriminate].
  destruct (callToLowerCase sev) as [low|] eqn:Hlow;
    cbn [bind] in H; [|discriminate].
  destruct (get issue "description") as [d|]; cbn [bind] in H; [|discriminate].
  destruct (orElse d (get issue "details")) as [dsc|];
    cbn [bind] in H; [|discriminate].
  destruct (get issue "location") as [loc|] eqn:Hl;
    cbn [bind] in H; [|discriminate].
  destruct (get issue "line") as [line|] eqn:Hline.
  2: { destruct issue; cbn in Hsev, Hline; try discriminate.
       destruct (lookup "line" fields); discriminate. }
  cbn [bind] in H.
  match type of H with
  | context [orElse loc ?b] =>
      destruct (orElse loc b) as [lc|] eqn:Hloc;
      cbn [bind] in H; [|discriminate]
  end.
  destruct sev; try discriminate Hlow.
  exists s, loc, line.
  split; [exact Hsev|]. split; [exact Hl|]. split; [exact Hline|].
  apply orElse_inv in Hloc. destruct Hloc as [[Ht _] | [_ Hb]]; [left; exact Ht|].
  right. destruct (toString (js_or line (VStr "Unknown"))) as [text|] eqn:Ht;
    [exists text; exact Ht | cbn in Hb; discriminate Hb].
Qed.

Lemma mapM_transformIssue_findingOk (l : list value) (fs : list finding) :
  mapM transformIssue l = OK fs -> Forall findingOk l.
Proof.
  intros H. apply (Forall2_Forall_l _ _ _ _ (mapM_Forall2 _ _ _ H)).
  intros x y Hxy. exact (transformIssue_findingOk _ _ Hxy).
Qed.

(** X1.  [transformResponse] returns a report exactly for the responses
    in which each of the three collections is absent (or falsy) or an array
    of findings whose severity is a string; for every other response it
    raises. *)
Theorem transformResponse_returns_iff (apiResponse : value) :
  (exists r, transformResponse apiResponse = OK r) <-> responseOk apiResponse.
Proof.
  split; [|apply transformResponse_ok].
  intros [r H].
  destruct (transformResponse_inv _ _ H)
    as (i & s & p & o & li & ls & lp & Hi & Hs & Hp & _ & Ei & Es & Ep
        & Mi & Ms & Mp & _).
  exists i, s, p. repeat (split; [assumption|]).
  split; [|split]; eapply collectionOk_of_array; try eassumption;
    eapply mapM_transformIssue_findingOk; eassumption.
Qed.

Lemma lowerUnit_idem (c : ascii) : lowerUnit (lowerUnit c) = lowerUnit c.
Proof. destruct c as [[] [] [] [] [] [] [] []]; reflexivity. Qed.

Lemma toLowerCase_idem (s : string) : toLowerCase (toLowerCase s) = toLowerCase s.
Proof.
  induction s as [|c s IH]; cbn; [reflexivity|].
  rewrite lowerUnit_idem, IH. reflexivity.
Qed.

(** X2.  In a report that [transformResponse] returns, the severity of
    every finding is in lower case. *)
Theorem transformResponse_severity_lower (apiResponse : value) (r : report) :
  transformResponse apiResponse = OK r ->
  Forall (fun f => toLowerCase (severity f) = severity f) (findingsOf r).
Proof.
  intros H.
  destruct (transformResponse_inv _ _ H)
    as (i & s & p & o & li & ls & lp & _ & _ & _ & _ & _ & _ & _
        & Mi & Ms & Mp & _).
  assert (Hone : forall l fs, mapM transformIssue l = OK fs ->
            Forall (fun f => toLowerCase (severity f) = severity f) fs).
  { intros l fs M. apply (Forall2_Forall_r _ _ _ _ (mapM_Forall2 _ _ _ M)).
    intros x f Hx. destruct (transformIssue_inv _ _ Hx) as (sv & _ & -> & _).
    apply toLowerCase_idem. }
  unfold findingsOf. repeat (apply Forall_app; split); eapply Hone; eassumption.
Qed.

Lemma transformResponse_severity_lower_witness :
  exists r,
    transformResponse sampleResponse = OK r /\
    Forall (fun f => toLowerCase (severity f) = severity f) (findingsOf r).
Proof.
  eexists. split.
  - reflexivity.
  - apply (transformResponse_severity_lower sampleResponse). reflexivity.
Defined.

(** X3.  In a report that [transformResponse] returns, no finding lacks a
    location, a code or a suggestion: the location is truthy, the code and
    the suggestion are truthy or the empty string. *)
Theorem transformResponse_fields_present (apiResponse : value) (r : report) :
  transformResponse apiResponse = OK r ->
  Forall (fun f =>
            truthy (location f) = true /\
            (code f = VStr "" \/ truthy (code f) = true) /\
            (suggestion f = VStr "" \/ truthy (suggestion f) = true))
         (findingsOf r).
Proof.
  intros H.
  destruct (transformResponse_inv _ _ H)
    as (i & s & p & o & li & ls & lp & _ & _ & _ & _ & _ & _ & _
        & Mi & Ms & Mp & _).
  assert (Hone : forall l fs, mapM transformIssue l = OK fs ->
            Forall (fun f =>
                      truthy (location f) = true /\
                      (code f = VStr "" \/ truthy (code f) = true) /\
                      (suggestion f = VStr "" \/ truthy (suggestion f) = true))
                   fs).
  { intros l fs M. apply (Forall2_Forall_r _ _ _ _ (mapM_Forall2 _ _ _ M)).
    intros x f Hx.
    destruct (transformIssue_inv _ _ Hx) as (sv & _ & _ & Hl & Hc & Hs).
    auto. }
  unfold findingsOf. repeat (apply Forall_app; split); eapply Hone; eassumption.
Qed.

Lemma transformResponse_fields_present_witness :
  exists r,
    transformResponse sampleResponse = OK r /\
    Forall (fun f =>
              truthy (location f) = true /\
              (code f = VStr "" \/ truthy (code f) = true) /\
              (suggestion f = VStr "" \/ truthy (suggestion f) = true))
           (findingsOf r).
Proof.
  eexists. split.
  - reflexivity.
  - apply (transformResponse_fields_present sampleResponse). reflexivity.
Defined.

(** ** Counting by severity *)

Lemma countSeverity_allIssuesOf (a : value) (sev : string) :
  countSeverity a sev =
  (allIssues <- allIssuesOf a ;;
   kept <- mapM (hasSeverity sev) allIssues ;;
   OK (countTrue kept)).
Proof.
  unfold countSeverity, allIssuesOf.
  destruct (get a "issues"); cbn [bind]; [|reflexivity].
  destruct (spread _); cbn [bind]; [|reflexivity].
  destruct (get a "security"); cbn [bind]; [|reflexivity].
  destruct (spread _); cbn [bind]; [|reflexivity].
  destruct (get a "performance"); cbn [bind]; [|reflexivity].
  destruct (spread _); cbn [bind]; reflexivity.
Qed.

Lemma countSeverity_inv (a : value) (sev : string) (n : nat) :
  countSeverity a sev = OK n ->
  exists allIssues kept,
    allIssuesOf a = OK allIssues /\
    mapM (hasSeverity sev) allIssues = OK kept /\
    n = countTrue kept.
Proof.
  rewrite countSeverity_allIssuesOf. intros H.
  destruct (allIssuesOf a) as [l|]; cbn [bind] in H; [|discriminate].
  destruct (mapM (hasSeverity sev) l) as [k|] eqn:Hk;
    cbn [bind] in H; [|discriminate].
  injection H as <-. eauto.
Qed.

Lemma totalIssues_allIssuesOf (a : value) (t : nat) (l : list value) :
  totalIssues a = OK t -> allIssuesOf a = OK l -> List.length l = t.
Proof.
  unfold totalIssues, allIssuesOf. intros Ht Hl.
  destruct (get a "issues") as [i|]; cbn [bind] in *; [|discriminate].
  destruct (spread (js_or i (VArr []))) as [xs|] eqn:Exs;
    cbn [bind] in Hl; [|discriminate].
  destruct (lengthOf (js_or i (VArr []))) as [ni|] eqn:Eni;
    cbn [bind] in Ht; [|discriminate].
  destruct (get a "security") as [s|]; cbn [bind] in *; [|discriminate].
  destruct (spread (js_or s (VArr []))) as [ys|] eqn:Eys;
    cbn [bind] in Hl; [|discriminate].
  destruct (lengthOf (js_or s (VArr []))) as [ns|] eqn:Ens;
    cbn [bind] in Ht; [|discriminate].
  destruct (get a "performance") as [p|]; cbn [bind] in *; [|discriminate].
  destruct (spread (js_or p (VArr []))) as [zs|] eqn:Ezs;
    cbn [bind] in Hl; [|discriminate].
  destruct (lengthOf (js_or p (VArr []))) as [np|] eqn:Enp;
    cbn [bind] in Ht; [|discriminate].
  injection Ht as <-. injection Hl as <-. rewrite !length_app.
  rewrite (spread_length _ _ _ Exs Eni), (spread_length _ _ _ Eys Ens),
    (spread_length _ _ _ Ezs Enp).
  lia.
Qed.

(** The test of [countSeverity] compares one string, the severity in
    lower case, with its argument. *)
Lemma hasSeverity_inv (sev : string) (issue : value) (b : bool) :
  hasSeverity sev issue = OK b ->
  exists s, get issue "severity" = OK (VStr s) /\ b = (toLowerCase s =? sev).
Proof.
  unfold hasSeverity. intros H.
  destruct (get issue "severity") as [v|]; cbn [bind] in H; [|discriminate].
  destruct v; try discriminate H. cbn in H. injection H as <-. eauto.
Qed.

Lemma three_tests (l : list value) (s1 s2 s3 : string) (k1 k2 k3 : list bool) :
  s1 <> s2 -> s1 <> s3 -> s2 <> s3 ->
  mapM (hasSeverity s1) l = OK k1 ->
  mapM (hasSeverity s2) l = OK k2 ->
  mapM (hasSeverity s3) l = OK k3 ->
  countTrue k1 + countTrue k2 + countTrue k3 <= List.length l.
Proof.
  intros N12 N13 N23. revert k1 k2 k3.
  induction l as [|x l IH]; intros k1 k2 k3 H1 H2 H3; cbn in *.
  - injection H1 as <-. injection H2 as <-. injection H3 as <-. cbn. lia.
  - destruct (hasSeverity s1 x) as [b1|] eqn:E1; cbn in H1; [|discriminate].
    destruct (hasSeverity s2 x) as [b2|] eqn:E2; cbn in H2; [|discriminate].
    destruct (hasSeverity s3 x) as [b3|] eqn:E3; cbn in H3; [|discriminate].
    destruct (mapM (hasSeverity s1) l) as [r1|]; cbn in H1; [|discriminate].
    destruct (mapM (hasSeverity s2) l) as [r2|]; cbn in H2; [|discriminate].
    destruct (mapM (hasSeverity s3) l) as [r3|]; cbn in H3; [|discriminate].
    injection H1 as <-. injection H2 as <-. injection H3 as <-.
    specialize (IH r1 r2 r3 eq_refl eq_refl eq_refl).
    destruct (hasSeverity_inv _ _ _ E1) as (v1 & G1 & ->).
    destruct (hasSeverity_inv _ _ _ E2) as (v2 & G2 & ->).
    destruct (hasSeverity_inv _ _ _ E3) as (v3 & G3 & ->).
    rewrite G1 in G2, G3. injection G2 as <-. injection G3 as <-.
    unfold countTrue in *. cbn [filter].
    destruct (String.eqb_spec (toLowerCase v1) s1),
             (String.eqb_spec (toLowerCase v1) s2),
             (String.eqb_spec (toLowerCase v1) s3);
      cbn [List.length]; try congruence; lia.
Qed.

(** X4.  The findings counted as high, as medium and as low are distinct
    findings: the three counts of [countSeverity] add up to at most the
    total that [calculateQualityScore] computes. *)
Theorem countSeverity_partition (apiResponse : value) (h m l t : nat) :
  countSeverity apiResponse "high" = OK h ->
  countSeverity apiResponse "medium" = OK m ->
  countSeverity apiResponse "low" = OK l ->
  totalIssues apiResponse = OK t ->
  h + m + l <= t.
Proof.
  intros Hh Hm Hl Ht.
  destruct (countSeverity_inv _ _ _ Hh) as (all & kh & Hall & Mh & ->).
  destruct (countSeverity_inv _ _ _ Hm) as (all' & km & Hall' & Mm & ->).
  destruct (countSeverity_inv _ _ _ Hl) as (all'' & kl & Hall'' & Ml & ->).
  rewrite Hall in Hall', Hall''.
  injection Hall' as <-. injection Hall'' as <-.
  rewrite <- (totalIssues_allIssuesOf _ _ _ Ht Hall).
  apply (three_tests all "high" "medium" "low"); try assumption; discriminate.
Qed.

Lemma countSeverity_partition_witness :
  countSeverity sampleResponse "high" = OK 2 /\
  countSeverity sampleResponse "medium" = OK 0 /\
  countSeverity sampleResponse "low" = OK 1 /\
  totalIssues sampleResponse = OK 3 /\
  2 + 0 + 1 <= 3.
Proof.
  repeat (split; [reflexivity|]).
  apply (countSeverity_partition sampleResponse 2 0 1 3); reflexivity.
Defined.

(** X5.  [countSeverity] compares with the severity in lower case, so an
    argument that is not in lower case itself matches no finding: the
    count is zero. *)
Theorem countSeverity_not_lower (apiResponse : value) (sev : string) (n : nat) :
  toLowerCase sev <> sev ->
  countSeverity apiResponse sev = OK n ->
  n = 0.
Proof.
  intros Hne H.
  destruct (countSeverity_inv _ _ _ H) as (all & kept & _ & M & ->).
  clear H. revert kept M.
  induction all as [|x all IH]; intros kept M; cbn in M.
  - injection M as <-. reflexivity.
  - destruct (hasSeverity sev x) as [b|] eqn:E; cbn in M; [|discriminate].
    destruct (mapM (hasSeverity sev) all) as [k|]; cbn in M; [|discriminate].
    injection M as <-.
    destruct (hasSeverity_inv _ _ _ E) as (s & _ & ->).
    unfold countTrue in *. cbn [filter].
    destruct (String.eqb_spec (toLowerCase s) sev) as [Heq|_].
    + exfalso. apply Hne. rewrite <- Heq. apply toLowerCase_idem.
    + apply IH. reflexivity.
Qed.

Lemma countSeverity_not_lower_witness :
  toLowerCase "High" <> "High" /\
  countSeverity sampleResponse "High" = OK 0 /\
  0 = 0.
Proof.
  split; [discriminate|]. split; [reflexivity|].
  apply (countSeverity_not_lower sampleResponse "High" 0);
    [discriminate | reflexivity].
Defined.

(** ** The grade of a report *)

Lemma hasSeverity_of_transformIssue (sev : string) (issue : value) (f : finding) :
  transformIssue issue = OK f ->
  hasSeverity sev issue = OK (severity f =? sev).
Proof.
  intros H. destruct (transformIssue_inv _ _ H) as (s & Hs & -> & _).
  unfold hasSeverity. rewrite Hs. reflexivity.
Qed.

Lemma mapM_hasSeverity_of_transformIssue (sev : string) (l : list value)
    (fs : list finding) :
  mapM transformIssue l = OK fs ->
  mapM (hasSeverity sev) l = OK (map (fun f => severity f =? sev) fs).
Proof.
  revert fs. induction l as [|x l IH]; intros fs H; cbn in H.
  - injection H as <-. reflexivity.
  - destruct (transformIssue x) as [f|] eqn:Hf; cbn in H; [|discriminate].
    destruct (mapM transformIssue l) as [fs'|]; cbn in H; [|discriminate].
    injection H as <-. cbn.
    rewrite (hasSeverity_of_transformIssue sev x f Hf), (IH fs' eq_refl).
    reflexivity.
Qed.

Lemma countTrue_map {X} (p : X -> bool) (l : list X) :
  countTrue (map p l) = List.length (filter p l).
Proof.
  unfold countTrue. induction l as [|x l IH]; cbn; [reflexivity|].
  destruct (p x); cbn; congruence.
Qed.

Lemma spread_array (x : value) (l : list value) :
  x = VArr l -> spread x = OK l /\ lengthOf x = OK (List.length l).
Proof. intros ->. split; reflexivity. Qed.

Lemma countSeverity_of_lists (a i s p : value) (li ls lp : list value)
    (fi fs fp : list finding) (sev : string) :
  get a "issues" = OK i -> get a "security" = OK s ->
  get a "performance" = OK p ->
  js_or i (VArr []) = VArr li -> js_or s (VArr []) = VArr ls ->
  js_or p (VArr []) = VArr lp ->
  mapM transformIssue li = OK fi -> mapM transformIssue ls = OK fs ->
  mapM transformIssue lp = OK fp ->
  countSeverity a sev
    = OK (List.length (filter (fun f => severity f =? sev) (fi ++ fs ++ fp))).
Proof.
  intros Hi Hs Hp Ei Es Ep Mi Ms Mp.
  destruct (spread_array _ _ Ei) as [Si _].
  destruct (spread_array _ _ Es) as [Ss _].
  destruct (spread_array _ _ Ep) as [Sp _].
  unfold countSeverity. rewrite Hi, Hs, Hp. cbn [bind].
  rewrite Si, Ss, Sp. cbn [bind].
  rewrite (mapM_app _ _ _ _ _
             (mapM_hasSeverity_of_transformIssue sev _ _ Mi)
             (mapM_app _ _ _ _ _
                (mapM_hasSeverity_of_transformIssue sev _ _ Ms)
                (mapM_hasSeverity_of_transformIssue sev _ _ Mp))).
  cbn [bind]. rewrite <- !map_app, countTrue_map. reflexivity.
Qed.

Lemma totalIssues_of_lists (a i s p : value) (li ls lp : list value)
    (fi fs fp : list finding) :
  get a "issues" = OK i -> get a "security" = OK s ->
  get a "performance" = OK p ->
  js_or i (VArr []) = VArr li -> js_or s (VArr []) = VArr ls ->
  js_or p (VArr []) = VArr lp ->
  mapM transformIssue li = OK fi -> mapM transformIssue ls = OK fs ->
  mapM transformIssue lp = OK fp ->
  totalIssues a = OK (List.length (fi ++ fs ++ fp)).
Proof.
  intros Hi Hs Hp Ei Es Ep Mi Ms Mp.
  destruct (spread_array _ _ Ei) as [_ Li].
  destruct (spread_array _ _ Es) as [_ Ls].
  destruct (spread_array _ _ Ep) as [_ Lp].
  unfold totalIssues. rewrite Hi, Hs, Hp. cbn [bind].
  rewrite Li, Ls, Lp. cbn [bind].
  rewrite !length_app, (mapM_length _ _ _ Mi), (mapM_length _ _ _ Ms),
    (mapM_length _ _ _ Mp).
  f_equal. lia.
Qed.

(** X6.  The counts that [countSeverity] computes on a response are the
    counts of the report that [transformResponse] makes of it: for every
    severity, as many findings of the report carry it as the response
    counts, and the total is the number of findings of the report. *)
Theorem countSeverity_of_report (apiResponse : value) (r : report)
    (sev : string) :
  transformResponse apiResponse = OK r ->
  countSeverity apiResponse sev = OK (severityCount sev r) /\
  totalIssues apiResponse = OK (List.length (findingsOf r)).
Proof.
  intros H.
  destruct (transformResponse_inv _ _ H)
    as (i & s & p & o & li & ls & lp & Hi & Hs & Hp & _ & Ei & Es & Ep
        & Mi & Ms & Mp & _).
  unfold severityCount, findingsOf. split.
  - eapply countSeverity_of_lists; eassumption.
  - eapply totalIssues_of_lists; eassumption.
Qed.

Lemma countSeverity_of_report_witness :
  exists r,
    transformResponse sampleResponse = OK r /\
    countSeverity sampleResponse "high" = OK (severityCount "high" r) /\
    totalIssues sampleResponse = OK (List.length (findingsOf r)).
Proof.
  eexists. split.
  - reflexivity.
  - apply (countSeverity_of_report sampleResponse). reflexivity.
Defined.

Lemma scoreOf_grades (h t : nat) :
  h <= t ->
  (scoreOf h t = Aplus <-> t = 0) /\
  (1 <= h -> grade_le (scoreOf h t) B) /\
  (scoreOf h t = C <-> 3 <= h).
Proof.
  intros Hle. unfold scoreOf, grade_le.
  cases_nat; cbn [andb gradeRank];
    (split; [split; intros; (discriminate || lia || reflexivity)|]);
    (split; [intros; lia|]);
    split; intros; (discriminate || lia || reflexivity).
Qed.

(** X7.  The grade of a report can be read off the report: it is A+
    exactly when the report has no finding, at most B as soon as a finding
    has the severity high, and C exactly when three findings or more have
    it. *)
Theorem transformResponse_grade (apiResponse : value) (r : report) :
  transformResponse apiResponse = OK r ->
  qualityScore (stats r) =
    scoreOf (severityCount "high" r) (List.length (findingsOf r)) /\
  (qualityScore (stats r) = Aplus <-> findingsOf r = []) /\
  (1 <= severityCount "high" r -> grade_le (qualityScore (stats r)) B) /\
  (qualityScore (stats r) = C <-> 3 <= severityCount "high" r).
Proof.
  intros H.
  destruct (transformResponse_inv _ _ H)
    as (i & s & p & o & li & ls & lp & Hi & Hs & Hp & _ & Ei & Es & Ep
        & Mi & Ms & Mp & _ & Hq).
  assert (Hh : countSeverity apiResponse "high" = OK (severityCount "high" r))
    by (eapply countSeverity_of_lists; eassumption).
  assert (Ht : totalIssues apiResponse = OK (List.length (findingsOf r)))
    by (eapply totalIssues_of_lists; eassumption).
  rewrite (calculateQualityScore_scoreOf _ _ _ Hh Ht) in Hq.
  injection Hq as Hq. rewrite <- Hq.
  assert (Hle : severityCount "high" r <= List.length (findingsOf r))
    by apply filter_length_le.
  destruct (scoreOf_grades _ _ Hle) as (HA & HB & HC).
  split; [reflexivity|]. split; [|split; assumption].
  rewrite HA. apply length_zero_iff_nil.
Qed.

Lemma transformResponse_grade_witness :
  exists r,
    transformResponse sampleResponse = OK r /\
    qualityScore (stats r) = Cplus /\
    grade_le (qualityScore (stats r)) B.
Proof.
  eexists. split; [reflexivity|]. split; [reflexivity|].
  apply (transformResponse_grade sampleResponse); [reflexivity|].
  vm_compute. lia.
Defined.

(** ** The request dispatcher: what it sends and how it gives up *)

Section DispatcherEvents.

Variable provider : Provider.
Variable this : CodeAnalysisAPI.
Variable url : string.
Variable init : RequestInit.

Lemma attemptOnce_world (w : world) :
  snd (attemptOnce provider url init w) = w ++ [EvFetch url init].
Proof.
  unfold attemptOnce, bindM, fetch.
  destruct (provider url init (fetchCount w)) as [e|r]; [reflexivity|].
  destruct (ok r); reflexivity.
Qed.

Lemma attemptOnce_error (w : world) :
  succeeds (provider url init (fetchCount w)) = None ->
  exists e,
    attemptError (provider url init (fetchCount w)) = Some e /\
    attemptOnce provider url init w = (Throw e, w ++ [EvFetch url init]).
Proof.
  unfold attemptOnce, bindM, fetch, succeeds, attemptError. intros H.
  destruct (provider url init (fetchCount w)) as [e|r]; [eauto|].
  destruct (ok r); cbn; [|unfold throwM; eauto].
  unfold lift. destruct (json r); [discriminate | eauto].
Qed.

Lemma retryLoop_events :
  forall (turns : nat) (attempt : Z) (lastError : exn) (w : world),
  exists evs,
    snd (retryLoop provider this turns url init attempt lastError w)
      = w ++ evs /\
    Forall (loopEvent this url init attempt) evs /\
    fetchCount evs <= turns.
Proof.
  induction turns as [|turns IH]; intros attempt lastError w; cbn [retryLoop].
  - exists []. rewrite app_nil_r. split; [reflexivity|].
    split; [constructor | apply Nat.le_0_l].
  - unfold tryCatch. pose proof (attemptOnce_world w) as Hw.
    destruct (attemptOnce provider url init w) as [[data|e] w1];
      cbn [snd] in Hw; subst w1.
    + exists [EvFetch url init]. split; [reflexivity|]. split.
      * constructor; [left; reflexivity | constructor].
      * cbn. lia.
    + unfold bindM at 1.
      destruct (attempt <? maxRetries (retryConfig this))%Z eqn:Hlt.
      * apply Z.ltb_lt in Hlt. unfold delay at 1.
        destruct (IH (attempt + 1)%Z e
                    ((w ++ [EvFetch url init]) ++
                     [EvDelay (retryDelay (retryConfig this) * (attempt + 1))]))
          as (evs & -> & Hall & Hcount).
        exists (EvFetch url init
                  :: EvDelay (retryDelay (retryConfig this) * (attempt + 1))
                  :: evs).
        split; [rewrite <- !app_assoc; reflexivity|]. split.
        -- constructor; [left; reflexivity|].
           constructor.
           { right. exists (attempt + 1)%Z. split; [lia | reflexivity]. }
           eapply Forall_impl; [|exact Hall].
           intros ev [-> | (k & Hk & ->)]; [left; reflexivity|].
           right. exists k. split; [lia | reflexivity].
        -- change (fetchCount (?a :: EvDelay ?d :: ?l)) with (S (fetchCount l)).
           lia.
      * unfold retM at 1.
        destruct (IH (attempt + 1)%Z e (w ++ [EvFetch url init]))
          as (evs & -> & Hall & Hcount).
        exists (EvFetch url init :: evs).
        split; [rewrite <- app_assoc; reflexivity|]. split.
        -- constructor; [left; reflexivity|].
           eapply Forall_impl; [|exact Hall].
           intros ev [-> | (k & Hk & ->)]; [left; reflexivity|].
           right. exists k. split; [lia | reflexivity].
        -- change (fetchCount (?a :: ?l)) with (S (fetchCount l)). lia.
Qed.

(** The loop when each of its [n + 1] turns fails and the last turn is the
    one of [attempt = maxRetries]: it raises the error of the last
    attempt, and has not waited after it. *)
Lemma retryLoop_all_fail (n : nat) :
  forall (attempt : Z) (lastError : exn) (w : world),
    (attempt + Z.of_nat n = maxRetries (retryConfig this))%Z ->
    (forall j, j <= n ->
               succeeds (provider url init (fetchCount w + j)) = None) ->
    exists e,
      attemptError (provider url init (fetchCount w + n)) = Some e /\
      retryLoop provider this (S n) url init attempt lastError w =
      (Throw e,
       w ++ retryTrace url init (retryDelay (retryConfig this)) attempt n).
Proof.
  induction n as [|n IH]; intros attempt lastError w Hmax Hfail.
  - destruct (attemptOnce_error w) as (e & He & Hrun).
    { rewrite <- (Nat.add_0_r (fetchCount w)). apply Hfail. lia. }
    exists e. rewrite Nat.add_0_r. split; [exact He|].
    cbn [retryLoop retryTrace]. unfold tryCatch. rewrite Hrun.
    replace (attempt <? maxRetries (retryConfig this))%Z with false
      by (symmetry; apply Z.ltb_ge; lia).
    reflexivity.
  - destruct (attemptOnce_error w) as (e0 & _ & Hrun).
    { rewrite <- (Nat.add_0_r (fetchCount w)). apply Hfail. lia. }
    destruct (IH (attempt + 1)%Z e0
                ((w ++ [EvFetch url init]) ++
                 [EvDelay (retryDelay (retryConfig this) * (attempt + 1))]))
      as (e & He & Hloop).
    { lia. }
    { intros j Hj. rewrite !fetchCount_app. cbn.
      replace (fetchCount w + 1 + 0 + j) with (fetchCount w + S j) by lia.
      apply Hfail. lia. }
    exists e. split.
    + rewrite !fetchCount_app in He. cbn in He.
      replace (fetchCount w + 1 + 0 + n) with (fetchCount w + S n) in He by lia.
      exact He.
    + change (retryLoop provider this (S (S n)) url init attempt lastError w)
        with (tryCatch (attemptOnce provider url init)
                (fun error =>
                   bindM (if (attempt <? maxRetries (retryConfig this))%Z
                          then delay (retryDelay (retryConfig this) * (attempt + 1))
                          else retM tt)
                     (fun _ => retryLoop provider this (S n) url init
                                 (attempt + 1) error)) w).
      unfold tryCatch. rewrite Hrun.
      replace (attempt <? maxRetries (retryConfig this))%Z with true
        by (symmetry; apply Z.ltb_lt; lia).
      unfold bindM at 1, delay at 1. rewrite Hloop.
      cbn [retryTrace]. rewrite <- !app_assoc. reflexivity.
Qed.

End DispatcherEvents.

(** X8.  Whatever the provider does and whatever has happened before,
    [makeRequest] only adds to the world: calls of [fetch], all with the
    same URL and the same options, at most [maxRetries + 1] of them, and
    delays of the base delay times a retry number between 1 and
    [maxRetries]; it writes nothing to the console. *)
Theorem makeRequest_events (provider : Provider) (this : CodeAnalysisAPI)
    (endpoint : string) (options : RequestInit) (w : world) :
  exists evs,
    snd (makeRequest provider this endpoint options w) = w ++ evs /\
    Forall (loopEvent this (baseUrl this ++ endpoint)%string
              (spreadInit (defaultOptions this) options) 0) evs /\
    fetchCount evs <= Z.to_nat (maxRetries (retryConfig this) + 1) /\
    consoleErrors evs = [].
Proof.
  unfold makeRequest.
  destruct (retryLoop_events provider this (baseUrl this ++ endpoint)%string
              (spreadInit (defaultOptions this) options)
              (Z.to_nat (maxRetries (retryConfig this) + 1)) 0
              (Thrown VUndefined) w) as (evs & Hw & Hall & Hcount).
  exists evs. split; [exact Hw|]. split; [exact Hall|]. split; [exact Hcount|].
  clear Hw Hcount. induction Hall as [|e evs He _ IH]; [reflexivity|].
  destruct He as [-> | (k & _ & ->)]; exact IH.
Qed.

(** X9.  When every attempt fails, [makeRequest] raises the error of the
    last attempt, after [maxRetries + 1] calls of [fetch] and [maxRetries]
    delays: it does not wait after the last failure. *)
Theorem makeRequest_exhausted (provider : Provider) (this : CodeAnalysisAPI)
    (endpoint : string) (options : RequestInit) :
  (0 <= maxRetries (retryConfig this))%Z ->
  (forall j, j <= Z.to_nat (maxRetries (retryConfig this)) ->
     succeeds (provider (baseUrl this ++ endpoint)%string
                 (spreadInit (defaultOptions this) options) j) = None) ->
  exists e,
    attemptError (provider (baseUrl this ++ endpoint)%string
                    (spreadInit (defaultOptions this) options)
                    (Z.to_nat (maxRetries (retryConfig this)))) = Some e /\
    fst (makeRequest provider this endpoint options []) = Throw e /\
    fetchCount (snd (makeRequest provider this endpoint options []))
      = S (Z.to_nat (maxRetries (retryConfig this))) /\
    delaysOf (snd (makeRequest provider this endpoint options []))
      = map (fun k => retryDelay (retryConfig this) * Z.of_nat k)%Z
            (seq 1 (Z.to_nat (maxRetries (retryConfig this)))).
Proof.
  intros Hmax Hfail. unfold makeRequest.
  replace (Z.to_nat (maxRetries (retryConfig this) + 1))
    with (S (Z.to_nat (maxRetries (retryConfig this)))) by lia.
  destruct (retryLoop_all_fail provider this (baseUrl this ++ endpoint)%string
              (spreadInit (defaultOptions this) options)
              (Z.to_nat (maxRetries (retryConfig this))) 0
              (Thrown VUndefined) []) as (e & He & ->).
  - lia.
  - exact Hfail.
  - exists e. cbn [fst snd app]. change (fetchCount [] + ?n) with n in He.
    rewrite fetchCount_retryTrace, delaysOf_retryTrace.
    split; [exact He|]. split; [reflexivity|]. split; reflexivity.
Qed.

Lemma makeRequest_exhausted_witness :
  fst (makeRequest (flakyProvider 9 VNull) (constructor (CONFIG None))
         "/analyze" (mkInit (Some "POST") None None) [])
    = Throw (Error "HTTP 503: Service Unavailable") /\
  delaysOf (snd (makeRequest (flakyProvider 9 VNull)
                   (constructor (CONFIG None))
                   "/analyze" (mkInit (Some "POST") None None) []))
    = [1000; 2000; 3000]%Z.
Proof.
  destruct (makeRequest_exhausted (flakyProvider 9 VNull)
              (constructor (CONFIG None)) "/analyze"
              (mkInit (Some "POST") None None))
    as (e & He & Hr & _ & Hd).
  - cbn. lia.
  - intros j Hj. cbn in Hj.
    destruct j as [|[|[|[|j]]]]; [reflexivity | reflexivity | reflexivity
                                 | reflexivity | lia].
  - cbn in He. injection He as <-. split; [exact Hr | exact Hd].
Defined.

(** X10.  With a negative [maxRetries] the loop has no turn: [makeRequest]
    throws [undefined] without any call of [fetch], and [analyzeCode]
    reports its failure without having sent the code. *)
Theorem makeRequest_negative_maxRetries (provider : Provider)
    (this : CodeAnalysisAPI) (endpoint : string) (options : RequestInit)
    (code language : value) (w : world) :
  (maxRetries (retryConfig this) < 0)%Z ->
  makeRequest provider this endpoint options w = (Throw (Thrown VUndefined), w) /\
  analyzeCode provider this code language w =
    (Throw (Error "Failed to analyze code. Please try again."),
     w ++ [EvConsoleError "Analysis failed:" (Thrown VUndefined)]).
Proof.
  intros Hneg.
  assert (Hturns : Z.to_nat (maxRetries (retryConfig this) + 1) = 0) by lia.
  unfold analyzeCode, tryCatch, bindM, makeRequest. rewrite Hturns.
  split; reflexivity.
Qed.

Lemma makeRequest_negative_maxRetries_witness :
  makeRequest deadProvider
    (mkThis "https://api.yourservice.com/v1" "k" 30000 (mkRetry (-1) 1000))
    "/analyze" (mkInit (Some "POST") None None) []
  = (Throw (Thrown VUndefined), []).
Proof.
  apply (makeRequest_negative_maxRetries deadProvider
           (mkThis "https://api.yourservice.com/v1" "k" 30000
              (mkRetry (-1) 1000))
           "/analyze" (mkInit (Some "POST") None None) VNull VNull []).
  cbn. lia.
Defined.

Lemma consoleErrors_retryTrace url init d attempt k :
  consoleErrors (retryTrace url init d attempt k) = [].
Proof.
  revert attempt. induction k as [|k IH]; intros attempt; [reflexivity|].
  cbn [retryTrace]. apply IH.
Qed.

Lemma analyzeCode_run (provider : Provider) (this : CodeAnalysisAPI)
    (code language : value) (N : nat) (data : value) :
  1 <= N ->
  (Z.of_nat N <= maxRetries (retryConfig this) + 1)%Z ->
  (forall url init j, j < N - 1 -> succeeds (provider url init j) = None) ->
  (forall url init, succeeds (provider url init (N - 1)) = Some data) ->
  exists w,
    fetchCount w = N /\ consoleErrors w = [] /\
    analyzeCode provider this code language [] =
    match transformResponse data with
    | OK r => (OK r, w)
    | Throw e =>
        (Throw (Error "Failed to analyze code. Please try again."),
         w ++ [EvConsoleError "Analysis failed:" e])
    end.
Proof.
  intros HN Hmax Hfail Hok.
  unfold analyzeCode, tryCatch, bindM, makeRequest.
  match goal with
  | |- context [retryLoop provider this ?t ?u ?i ?a ?e []] =>
      rewrite (retryLoop_success provider this u i data (N - 1) t a e []);
      [| lia | lia | intros j Hj; apply Hfail; exact Hj | apply Hok]
  end.
  cbn [app].
  match goal with
  | |- context [retryTrace ?u ?i ?d ?a ?k] => exists (retryTrace u i d a k)
  end.
  split; [rewrite fetchCount_retryTrace; lia|].
  split; [apply consoleErrors_retryTrace|].
  unfold lift, consoleError, throwM.
  destruct (transformResponse data); reflexivity.
Qed.

(** X11.  When attempt [N] is the first to succeed and its data can be
    normalized, [analyzeCode] returns the report that [transformResponse]
    makes of the data, after [N] calls of [fetch] and without writing to
    the console. *)
Theorem analyzeCode_success (provider : Provider) (this : CodeAnalysisAPI)
    (code language : value) (N : nat) (data : value) (r : report) :
  1 <= N ->
  (Z.of_nat N <= maxRetries (retryConfig this) + 1)%Z ->
  (forall url init j, j < N - 1 -> succeeds (provider url init j) = None) ->
  (forall url init, succeeds (provider url init (N - 1)) = Some data) ->
  transformResponse data = OK r ->
  fst (analyzeCode provider this code language []) = OK r /\
  fetchCount (snd (analyzeCode provider this code language [])) = N /\
  consoleErrors (snd (analyzeCode provider this code language [])) = [].
Proof.
  intros HN Hmax Hfail Hok Hr.
  destruct (analyzeCode_run provider this code language N data
              HN Hmax Hfail Hok) as (w & Hf & Hc & ->).
  rewrite Hr. cbn [fst snd]. auto.
Qed.

Lemma analyzeCode_success_witness :
  exists r,
    transformResponse sampleResponse = OK r /\
    fst (analyzeCode (flakyProvider 2 sampleResponse)
           (constructor (CONFIG None))
           (VStr exampleCode) (VStr "javascript") []) = OK r /\
    fetchCount (snd (analyzeCode (flakyProvider 2 sampleResponse)
                       (constructor (CONFIG None))
                       (VStr exampleCode) (VStr "javascript") [])) = 3 /\
    consoleErrors (snd (analyzeCode (flakyProvider 2 sampleResponse)
                          (constructor (CONFIG None))
                          (VStr exampleCode) (VStr "javascript") [])) = [].
Proof.
  eexists. split; [reflexivity|].
  apply (analyzeCode_success (flakyProvider 2 sampleResponse)
           (constructor (CONFIG None))
           (VStr exampleCode) (VStr "javascript") 3 sampleResponse).
  - lia.
  - cbn. lia.
  - intros url init j Hj.
    destruct j as [|[|j]]; [reflexivity | reflexivity | lia].
  - intros url init. reflexivity.
  - reflexivity.
Defined.

(** X12.  A response that [transformResponse] cannot normalize is not
    asked for again: [analyzeCode] logs the error of the normalizer once
    and raises its own error, with no call of [fetch] after the attempt
    that succeeded. *)
Theorem analyzeCode_bad_response (provider : Provider) (this : CodeAnalysisAPI)
    (code language : value) (N : nat) (data : value) (e : exn) :
  1 <= N ->
  (Z.of_nat N <= maxRetries (retryConfig this) + 1)%Z ->
  (forall url init j, j < N - 1 -> succeeds (provider url init j) = None) ->
  (forall url init, succeeds (provider url init (N - 1)) = Some data) ->
  transformResponse data = Throw e ->
  fst (analyzeCode provider this code language [])
    = Throw (Error "Failed to analyze code. Please try again.") /\
  fetchCount (snd (analyzeCode provider this code language [])) = N /\
  consoleErrors (snd (analyzeCode provider this code language []))
    = [("Analysis failed:", e)].
Proof.
  intros HN Hmax Hfail Hok Hr.
  destruct (analyzeCode_run provider this code language N data
              HN Hmax Hfail Hok) as (w & Hf & Hc & ->).
  rewrite Hr. cbn [fst snd].
  rewrite fetchCount_app, consoleErrors_app, Hf, Hc. cbn.
  split; [reflexivity|]. split; [lia | reflexivity].
Qed.

Lemma analyzeCode_bad_response_witness :
  fetchCount (snd (analyzeCode (flakyProvider 0 partialResponse)
                     (constructor (CONFIG None))
                     (VStr exampleCode) (VStr "javascript") [])) = 1 /\
  consoleErrors (snd (analyzeCode (flakyProvider 0 partialResponse)
                        (constructor (CONFIG None))
                        (VStr exampleCode) (VStr "javascript") []))
    = [("Analysis failed:", TypeError)].
Proof.
  destruct (analyzeCode_bad_response (flakyProvider 0 partialResponse)
              (constructor (CONFIG None))
              (VStr exampleCode) (VStr "javascript") 1 partialResponse
              TypeError)
    as (_ & Hf & Hc).
  - lia.
  - cbn. lia.
  - intros url init j Hj. lia.
  - intros url init. reflexivity.
  - reflexivity.
  - split; [exact Hf | exact Hc].
Defined.

(** X13.  Every request that [analyzeCode] sends, at the first attempt and
    at each retry, is the same: a POST to [baseUrl + '/analyze'] with the
    three default headers, the bearer key among them, and the code, the
    language and the four analysis options as its body. *)
Theorem analyzeCode_requests (provider : Provider) (this : CodeAnalysisAPI)
    (code language : value) :
  Forall (fun e => isFetch e = true -> e = analyzeRequest this code language)
         (snd (analyzeCode provider this code language [])).
Proof.
  unfold analyzeCode, tryCatch, bindM, makeRequest.
  match goal with
  | |- context [retryLoop provider this ?t ?u ?i ?a ?e []] =>
      destruct (retryLoop_events provider this u i t a e [])
        as (evs & Hw & Hall & _);
      destruct (retryLoop provider this t u i a e []) as [[data|err] w1]
  end; cbn [snd app] in Hw; subst w1.
  - assert (Hevs : Forall (fun e => isFetch e = true ->
                                    e = analyzeRequest this code language) evs).
    { eapply Forall_impl; [|exact Hall].
      intros ev [-> | (k & _ & ->)]; [reflexivity | discriminate]. }
    unfold lift, consoleError, throwM.
    destruct (transformResponse data); cbn [snd]; [exact Hevs|].
    apply Forall_app. split; [exact Hevs|].
    constructor; [discriminate | constructor].
  - unfold consoleError, throwM. cbn [snd].
    apply Forall_app. split.
    + eapply Forall_impl; [|exact Hall].
      intros ev [-> | (k & _ & ->)]; [reflexivity | discriminate].
    + constructor; [discriminate | constructor].
Qed.

(** ** Input validation: the verdict *)

Lemma eqb_empty_length (s : string) : (s =? "") = (String.length s =? 0)%nat.
Proof. destruct s; reflexivity. Qed.

Lemma trim_empty_blank (s : string) : (trim s =? "") = blank s.
Proof. rewrite eqb_empty_length. apply trim_length_zero. Qed.

Lemma includesLanguage_iff (language : value) :
  includesLanguage language = true <->
  exists l, language = VStr l /\ In l supported.
Proof.
  unfold includesLanguage. split.
  - destruct language; try discriminate. intros H.
    apply existsb_exists in H. destruct H as (l & Hin & Heq).
    apply String.eqb_eq in Heq. subst l. eauto.
  - intros (l & -> & Hin). apply existsb_exists.
    exists l. split; [exact Hin | apply String.eqb_refl].
Qed.

Lemma validateInput_valid_iff (s : string) (language : value) (text : string)
    (v : validation) :
  toString language = OK text ->
  validateInput (VStr s) language = OK v ->
  (isValid v = true <->
   blank s = false /\ (Z.of_nat (String.length s) <= 50000)%Z /\
   includesLanguage language = true).
Proof.
  intros Htext Hv. rewrite (validateInput_string s language text Htext) in Hv.
  injection Hv as <-. cbn [isValid]. rewrite Nat.eqb_eq.
  destruct (blank s), (Z.ltb_spec 50000 (Z.of_nat (String.length s))),
    (includesLanguage language); cbn [app List.length];
    (split;
     [ intros Hv; try discriminate Hv; repeat split; (reflexivity || lia)
     | intros (Hb & Hl & Hs);
       first [reflexivity | discriminate Hb | discriminate Hs | lia] ]).
Qed.

(** X14.  [validateInput] returns a valid result for a string exactly
    when the string is not blank, has at most 50000 characters and comes
    with one of the twelve languages; the bound and the languages are those
    of [CONFIG.analysis], which the function does not read. *)
Theorem validateInput_accepts_iff (API_KEY : option string) (s : string)
    (language : value) :
  (exists v, validateInput (VStr s) language = OK v /\ isValid v = true) <->
  blank s = false /\
  (Z.of_nat (String.length s) <= maxCodeLength (analysis (CONFIG API_KEY)))%Z /\
  exists l, language = VStr l /\
            In l (supportedLanguages (analysis (CONFIG API_KEY))).
Proof.
  change (supportedLanguages (analysis (CONFIG API_KEY))) with supported.
  change (maxCodeLength (analysis (CONFIG API_KEY))) with 50000%Z.
  rewrite <- includesLanguage_iff. split.
  - intros (v & Hv & Hvalid).
    destruct (toString language) as [text|e] eqn:Htext.
    + apply (validateInput_valid_iff s language text v Htext Hv). exact Hvalid.
    + rewrite (validateInput_string_raises s language e Htext) in Hv.
      discriminate Hv.
  - intros (Hb & Hl & Hs).
    assert (Htext : exists text, toString language = OK text).
    { apply includesLanguage_iff in Hs. destruct Hs as (l & -> & _).
      exists l. reflexivity. }
    destruct Htext as [text Htext].
    eexists. split; [apply (validateInput_string s language text Htext)|].
    apply (validateInput_valid_iff s language text _ Htext
             (validateInput_string s language text Htext)).
    auto.
Qed.

(** X15.  A code that is not a string makes [validateInput] raise a
    TypeError, with two exceptions: [false] and [0] are taken as the empty
    string is. *)
Theorem validateInput_not_a_string (code language : value) :
  (forall s, code <> VStr s) ->
  validateInput code language =
  match code with
  | VBool false => validateInput (VStr "") language
  | VNum n =>
      if isZero n then validateInput (VStr "") language else Throw TypeError
  | _ => Throw TypeError
  end.
Proof.
  intros Hns.
  destruct code as [| | [|] | [[|] t] | s | l | fs]; try reflexivity.
  exfalso. apply (Hns s). reflexivity.
Qed.

Lemma validateInput_not_a_string_witness :
  validateInput (VArr [VStr "let x = 1;"]) (VStr "javascript")
  = Throw TypeError.
Proof.
  apply (validateInput_not_a_string (VArr [VStr "let x = 1;"])
           (VStr "javascript")).
  intros s. discriminate.
Defined.

(** X16.  The analyze button shows its alert exactly for a blank text,
    and the mock report for every other text; the texts that it refuses
    are those for which [validateInput], given the same text and the value
    of the language select, reports the emptiness. *)
Theorem analyzeClick_blank (codeInputValue languageSelectValue : string) :
  analyzeClick codeInputValue languageSelectValue =
    (if blank codeInputValue
     then Alert "Please enter some code to analyze"
     else Results (getMockAnalysisData VUndefined VUndefined)) /\
  exists v,
    validateInput (VStr codeInputValue) (VStr languageSelectValue) = OK v /\
    (In errEmpty (errors v) <-> blank codeInputValue = true).
Proof.
  split.
  - unfold analyzeClick. rewrite trim_empty_blank.
    destruct (blank codeInputValue); reflexivity.
  - eexists.
    split; [apply (validateInput_string codeInputValue
                     (VStr languageSelectValue) languageSelectValue eq_refl)|].
    cbn [errors].
    destruct (blank codeInputValue); split; intros H; try reflexivity.
    + left. reflexivity.
    + exfalso. cbn [app] in H.
      apply in_app_or in H. destruct H as [H | H].
      * destruct (50000 <? Z.of_nat (String.length codeInputValue))%Z;
          [destruct H as [H | []]; discriminate H | destruct H].
      * destruct (includesLanguage (VStr languageSelectValue)); [destruct H|].
        destruct H as [H | []]. discriminate H.
    + discriminate H.
Qed.

(** ** The editor: lines, the Tab key, the upload, the escaping *)

Lemma length_append (a b : string) :
  String.length (a ++ b) = String.length a + String.length b.
Proof. induction a as [|c a IH]; cbn; [reflexivity | now rewrite IH]. Qed.

Lemma append_assoc (a b c : string) : ((a ++ b) ++ c = a ++ (b ++ c))%string.
Proof. induction a as [|x a IH]; cbn; [reflexivity | now rewrite IH]. Qed.

Lemma countChar_append (c : ascii) (a b : string) :
  countChar c (a ++ b) = countChar c a + countChar c b.
Proof.
  induction a as [|x a IH]; cbn; [reflexivity|]. rewrite IH. lia.
Qed.

Lemma splitOn_nonempty (sep : ascii) (s : string) : splitOn sep s <> [].
Proof.
  destruct s as [|c s]; cbn; [discriminate|].
  destruct (Ascii.eqb c sep); [discriminate|].
  destruct (splitOn sep s); discriminate.
Qed.

Lemma length_splitOn (sep : ascii) (s : string) :
  List.length (splitOn sep s) = S (countChar sep s).
Proof.
  induction s as [|c s IH]; cbn; [reflexivity|].
  destruct (Ascii.eqb c sep); cbn; [now rewrite IH|].
  destruct (splitOn sep s) as [|piece pieces] eqn:E.
  - exfalso. exact (splitOn_nonempty sep s E).
  - exact IH.
Qed.

Lemma join_splitOn (sep : ascii) (s : string) :
  join (String sep EmptyString) (splitOn sep s) = s.
Proof.
  induction s as [|c s IH]; cbn [splitOn]; [reflexivity|].
  destruct (Ascii.eqb_spec c sep) as [-> | Hne].
  - destruct (splitOn sep s) as [|piece pieces] eqn:E.
    + exfalso. exact (splitOn_nonempty sep s E).
    + change (join (String sep "") ("" :: piece :: pieces))
        with (String sep (join (String sep "") (piece :: pieces))).
      now rewrite IH.
  - destruct (splitOn sep s) as [|piece pieces] eqn:E.
    + exfalso. exact (splitOn_nonempty sep s E).
    + destruct pieces as [|piece' pieces].
      * cbn in *. now rewrite IH.
      * change (join (String sep "") (String c piece :: piece' :: pieces))
          with (String c (join (String sep "") (piece :: piece' :: pieces))).
        now rewrite IH.
Qed.

Lemma totalLength_splitOn (sep : ascii) (s : string) :
  totalLength (splitOn sep s) + countChar sep s = String.length s.
Proof.
  induction s as [|c s IH]; cbn [splitOn countChar String.length];
    [reflexivity|].
  destruct (Ascii.eqb c sep); cbn [totalLength String.length].
  - lia.
  - destruct (splitOn sep s) as [|piece pieces] eqn:E.
    + exfalso. exact (splitOn_nonempty sep s E).
    + cbn [totalLength String.length] in *. lia.
Qed.

(** X17.  [updateLineNumbers] shows one line more than the text has line
    feeds, so one line for the empty text; the lines that it numbers,
    joined by line feeds, are the text; and the characters that it counts
    are those of the lines and the line feeds between them. *)
Theorem updateLineNumbers_counts (codeInputValue : string) :
  lineCountText (updateLineNumbers codeInputValue)
    = S (countChar LF codeInputValue) /\
  join (String LF EmptyString) (splitOn LF codeInputValue) = codeInputValue /\
  charCountText (updateLineNumbers codeInputValue)
    = totalLength (splitOn LF codeInputValue)
      + (lineCountText (updateLineNumbers codeInputValue) - 1).
Proof.
  unfold updateLineNumbers. cbn [lineCountText charCountText].
  rewrite length_splitOn. split; [reflexivity|].
  split; [apply join_splitOn|].
  rewrite <- (totalLength_splitOn LF codeInputValue) at 1. lia.
Qed.

Lemma length_substring (n m : nat) (s : string) :
  String.length (substring n m s) = Nat.min m (String.length s - n).
Proof.
  revert n m. induction s as [|c s IH]; intros n m.
  - destruct n, m; reflexivity.
  - destruct n as [|n]; cbn [substring String.length].
    + destruct m as [|m]; cbn [String.length]; [reflexivity|].
      rewrite IH. cbn. rewrite Nat.sub_0_r. reflexivity.
    + rewrite IH. reflexivity.
Qed.

Lemma substring_prefix_append (n : nat) (a b : string) :
  n <= String.length a ->
  substring 0 n (a ++ b) = substring 0 n a.
Proof.
  revert n. induction a as [|c a IH]; intros n Hn; cbn in *.
  - replace n with 0 by lia. destruct b; reflexivity.
  - destruct n as [|n]; [reflexivity|]. rewrite IH by lia. reflexivity.
Qed.

Lemma substring_whole (s : string) : substring 0 (String.length s) s = s.
Proof. induction s as [|c s IH]; cbn; [reflexivity | now rewrite IH]. Qed.

Lemma substring_skip_append (a b : string) (m : nat) :
  substring (String.length a) m (a ++ b) = substring 0 m b.
Proof. induction a as [|c a IH]; cbn; [reflexivity | exact IH]. Qed.

Lemma substring_split (n : nat) (s : string) :
  (substring 0 n s ++ substring n (String.length s - n) s)%string = s.
Proof.
  revert n. induction s as [|c s IH]; intros n.
  - destruct n; reflexivity.
  - destruct n as [|n]; cbn [substring String.length Nat.sub append].
    + rewrite substring_whole. reflexivity.
    + rewrite IH. reflexivity.
Qed.

(** X18.  The Tab key, for a selection from [start] to [end] inside the
    text: the text before the selection and the text after it are kept,
    four spaces stand in place of the selection, and the caret is put
    right after them. *)
Theorem insertTab_replaces_selection (value : string) (start end_ : nat) :
  start <= end_ -> end_ <= String.length value ->
  String.length (fst (insertTab value start end_))
    = String.length value - (end_ - start) + 4 /\
  substring 0 start (fst (insertTab value start end_))
    = substring 0 start value /\
  substring start 4 (fst (insertTab value start end_)) = "    " /\
  snd (insertTab value start end_) = start + 4 /\
  substring (snd (insertTab value start end_))
    (String.length value - end_) (fst (insertTab value start end_))
    = substring end_ (String.length value - end_) value.
Proof.
  intros Hse Hel. unfold insertTab. cbn [fst snd].
  set (pre := substring 0 start value).
  set (post := substring end_ (String.length value - end_) value).
  assert (Hpre : String.length pre = start).
  { unfold pre. rewrite length_substring. lia. }
  assert (Hpost : String.length post = String.length value - end_).
  { unfold post. rewrite length_substring. lia. }
  split; [rewrite !length_append, Hpre, Hpost; cbn; lia|].
  split.
  { rewrite substring_prefix_append by lia.
    rewrite <- Hpre at 1. apply substring_whole. }
  split.
  { rewrite <- Hpre at 1. rewrite substring_skip_append.
    cbn [append substring]. destruct post; reflexivity. }
  split; [reflexivity|].
  rewrite <- append_assoc.
  replace (start + 4) with (String.length (pre ++ "    "))
    by (rewrite length_append, Hpre; reflexivity).
  rewrite substring_skip_append, <- Hpost. apply substring_whole.
Qed.

Lemma insertTab_replaces_selection_witness :
  fst (insertTab "if (x) return;" 4 5) = "if (    ) return;" /\
  snd (insertTab "if (x) return;" 4 5) = 8 /\
  String.length (fst (insertTab "if (x) return;" 4 5)) = 14 - (5 - 4) + 4.
Proof.
  split; [reflexivity|].
  destruct (insertTab_replaces_selection "if (x) return;" 4 5)
    as (Hlen & _ & _ & Hcaret & _).
  - lia.
  - cbn. lia.
  - split; [exact Hcaret | exact Hlen].
Defined.

(** X19.  The Tab key with no selection adds four characters and no line:
    after it [updateLineNumbers] shows the same number of lines and four
    characters more. *)
Theorem insertTab_keeps_lines (value : string) (caret : nat) :
  lineCountText (updateLineNumbers (fst (insertTab value caret caret)))
    = lineCountText (updateLineNumbers value) /\
  charCountText (updateLineNumbers (fst (insertTab value caret caret)))
    = charCountText (updateLineNumbers value) + 4.
Proof.
  unfold updateLineNumbers, insertTab.
  cbn [fst lineCountText charCountText].
  rewrite !length_splitOn.
  set (pre := substring 0 caret value).
  set (post := substring caret (String.length value - caret) value).
  assert (Hv : (pre ++ post)%string = value) by apply substring_split.
  rewrite <- Hv.
  rewrite !countChar_append, !length_append. cbn. lia.
Qed.

Lemma last_splitOn_no_sep (sep : ascii) (s : string) :
  countChar sep s = 0 -> splitOn sep s = [s].
Proof.
  induction s as [|c s IH]; cbn; [reflexivity|].
  destruct (Ascii.eqb c sep); [discriminate|].
  intros H. rewrite (IH H). reflexivity.
Qed.

Lemma last_cons_nonempty {X} (x : X) (l : list X) (d : X) :
  l <> [] -> last (x :: l) d = last l d.
Proof. destruct l; [contradiction | reflexivity]. Qed.

Lemma last_splitOn_append (sep : ascii) (base rest : string) :
  last (splitOn sep (base ++ String sep rest)) EmptyString
  = last (splitOn sep rest) EmptyString.
Proof.
  induction base as [|c base IH]; cbn [append splitOn].
  - rewrite Ascii.eqb_refl.
    apply last_cons_nonempty, splitOn_nonempty.
  - destruct (Ascii.eqb c sep).
    + rewrite last_cons_nonempty by apply splitOn_nonempty. exact IH.
    + destruct (splitOn sep (base ++ String sep rest)) as [|piece pieces] eqn:E.
      * exfalso. exact (splitOn_nonempty _ _ E).
      * destruct pieces as [|piece' pieces].
        -- exfalso.
           assert (Hlen : List.length (splitOn sep (base ++ String sep rest)) = 1)
             by (rewrite E; reflexivity).
           rewrite length_splitOn, countChar_append in Hlen. cbn in Hlen.
           rewrite Ascii.eqb_refl in Hlen. lia.
        -- rewrite <- IH. reflexivity.
Qed.

Lemma lowerUnit_dot (c : ascii) :
  Ascii.eqb (lowerUnit c) "."%char = Ascii.eqb c "."%char.
Proof. destruct c as [[] [] [] [] [] [] [] []]; reflexivity. Qed.

Lemma countChar_dot_toLowerCase (s : string) :
  countChar "."%char (toLowerCase s) = countChar "."%char s.
Proof.
  induction s as [|c s IH]; cbn; [reflexivity|].
  rewrite lowerUnit_dot, IH. reflexivity.
Qed.

Lemma assoc_In (k v : string) (table : list (string * string)) :
  assoc k table = Some v -> In v (map snd table).
Proof.
  induction table as [|[k' v'] table IH]; cbn; [discriminate|].
  destruct (k' =? k); intros H.
  - injection H as <-. left. reflexivity.
  - right. apply IH. exact H.
Qed.

(** X20.  A language that the upload handler detects from a file name is
    one that [validateInput] accepts, and one of [CONFIG.analysis]. *)
Theorem detectLanguage_supported (API_KEY : option string)
    (fileName language : string) :
  detectLanguage fileName = Language language ->
  includesLanguage (VStr language) = true /\
  In language (supportedLanguages (analysis (CONFIG API_KEY))).
Proof.
  unfold detectLanguage. intros H.
  destruct (assoc (extensionOf fileName) languageMap) as [l|] eqn:E.
  - injection H as <-. apply assoc_In in E.
    assert (Hall : Forall (fun l => includesLanguage (VStr l) = true)
                     (map snd languageMap))
      by (repeat constructor).
    rewrite Forall_forall in Hall. specialize (Hall l E).
    split; [exact Hall|].
    apply includesLanguage_iff in Hall. destruct Hall as (l' & Hl' & Hin).
    injection Hl' as <-. exact Hin.
  - destruct ((extensionOf fileName =? "constructor")
              || (extensionOf fileName =? "__proto__")); discriminate.
Qed.

Lemma detectLanguage_supported_witness :
  detectLanguage "Main.KT" = Language "kotlin" /\
  includesLanguage (VStr "kotlin") = true.
Proof.
  split; [reflexivity|].
  apply (detectLanguage_supported None "Main.KT" "kotlin"). reflexivity.
Defined.

(** X21.  Only what follows the last dot of the file name counts, and
    upper and lower case are not told apart: for an extension without a
    dot, the file [base.extension] is detected as the bare name
    [extension] is, and as its lower-case form is. *)
Theorem detectLanguage_last_extension (base extension : string) :
  countChar "."%char extension = 0 ->
  detectLanguage (base ++ String "."%char extension)
    = detectLanguage extension /\
  detectLanguage (base ++ String "."%char extension)
    = detectLanguage (toLowerCase extension).
Proof.
  intros Hdot.
  assert (He : extensionOf (base ++ String "."%char extension)
               = toLowerCase extension).
  { unfold extensionOf. rewrite last_splitOn_append.
    rewrite (last_splitOn_no_sep _ _ Hdot). reflexivity. }
  assert (He1 : extensionOf extension = toLowerCase extension).
  { unfold extensionOf. rewrite (last_splitOn_no_sep _ _ Hdot). reflexivity. }
  assert (He2 : extensionOf (toLowerCase extension) = toLowerCase extension).
  { unfold extensionOf. rewrite last_splitOn_no_sep.
    - apply toLowerCase_idem.
    - rewrite countChar_dot_toLowerCase. exact Hdot. }
  unfold detectLanguage. rewrite He, He1, He2. split; reflexivity.
Qed.

Lemma detectLanguage_last_extension_witness :
  detectLanguage ("archive.tar" ++ String "."%char "PY") = Language "python".
Proof.
  destruct (detectLanguage_last_extension "archive.tar" "PY") as [-> _];
    reflexivity.
Defined.

Lemma escapeChar_no_markup (c : ascii) :
  countChar LT (escapeChar c) = 0 /\ countChar GT (escapeChar c) = 0.
Proof. destruct c as [[] [] [] [] [] [] [] []]; split; reflexivity. Qed.

Lemma length_escapeChar (c : ascii) :
  String.length (escapeChar c) =
  1 + 4 * countChar AMP (String c EmptyString)
    + 5 * countChar NBSP (String c EmptyString)
    + 3 * countChar LT (String c EmptyString)
    + 3 * countChar GT (String c EmptyString).
Proof. destruct c as [[] [] [] [] [] [] [] []]; reflexivity. Qed.

Lemma escapeChar_plain (c : ascii) :
  countChar AMP (String c EmptyString) = 0 ->
  countChar NBSP (String c EmptyString) = 0 ->
  countChar LT (String c EmptyString) = 0 ->
  countChar GT (String c EmptyString) = 0 ->
  escapeChar c = String c EmptyString.
Proof.
  destruct c as [[] [] [] [] [] [] [] []]; cbn; intros; 
    first [reflexivity | discriminate].
Qed.

Lemma length_escapeHtml (text : string) :
  String.length (escapeHtml text) =
  String.length text + 4 * countChar AMP text + 5 * countChar NBSP text
    + 3 * countChar LT text + 3 * countChar GT text.
Proof.
  induction text as [|c text IH]; [reflexivity|].
  cbn [escapeHtml]. rewrite length_append, length_escapeChar, IH.
  change (String c text) with (String c EmptyString ++ text)%string.
  rewrite !countChar_append, length_append. cbn [String.length]. lia.
Qed.

(** X22.  What [escapeHtml] returns has no [<] and no [>], whatever the
    text: the code of a finding cannot open or close a tag in the card
    that [renderIssue] builds. *)
Theorem escapeHtml_no_markup (text : string) :
  countChar LT (escapeHtml text) = 0 /\ countChar GT (escapeHtml text) = 0.
Proof.
  induction text as [|c text [IHl IHg]]; [split; reflexivity|].
  cbn [escapeHtml]. rewrite !countChar_append, IHl, IHg.
  destruct (escapeChar_no_markup c) as [-> ->]. split; reflexivity.
Qed.

(** X23.  [escapeHtml] leaves a text as it is exactly when the text has
    none of the four characters [&], no-break space, [<] and [>]; every
    other text gets longer, by 4, 5, 3 and 3 characters for each of them. *)
Theorem escapeHtml_identity_iff (text : string) :
  (escapeHtml text = text <->
   countChar AMP text = 0 /\ countChar NBSP text = 0 /\
   countChar LT text = 0 /\ countChar GT text = 0) /\
  String.length (escapeHtml text) =
    String.length text + 4 * countChar AMP text + 5 * countChar NBSP text
      + 3 * countChar LT text + 3 * countChar GT text.
Proof.
  split; [|apply length_escapeHtml].
  split.
  - intros H. pose proof (length_escapeHtml text) as Hlen.
    rewrite H in Hlen. lia.
  - induction text as [|c text IH]; [reflexivity|].
    change (String c text) with (String c EmptyString ++ text)%string.
    rewrite !countChar_append. intros (Ha & Hn & Hl & Hg).
    cbn [escapeHtml append].
    rewrite escapeChar_plain by lia.
    cbn [append]. f_equal. apply IH. lia.
Qed.

Example escapeHtml_tag :
  escapeHtml "if (a < b && c > d) {}" = "if (a &lt; b &amp;&amp; c &gt; d) {}".
Proof. reflexivity. Qed.

(** ** What the normalizer reads *)

(** X24.  [transformIssues] reads ten fields of a finding and no other:
    two findings that agree on them are transformed alike.  The fields
    [code] and [suggestion] of the documented response format are not
    among them. *)
Theorem transformIssue_reads (fields fields' : list (string * value)) :
  (forall k, In k issueFields -> lookup k fields = lookup k fields') ->
  transformIssue (VObj fields) = transformIssue (VObj fields').
Proof.
  intros H. unfold transformIssue, get.
  rewrite (H "title"), (H "message"), (H "severity"), (H "description"),
    (H "details"), (H "location"), (H "line"), (H "codeSnippet"),
    (H "recommendation"), (H "fix");
    first [reflexivity | cbn; tauto].
Qed.

Lemma transformIssue_reads_witness :
  transformIssue (VObj documentedFinding)
  = transformIssue (VObj [("title", VStr "Issue title");
                          ("severity", VStr "high|medium|low");
                          ("description", VStr "Detailed description");
                          ("location", VStr "Line 5")]) /\
  transformIssue (VObj documentedFinding)
  = OK {| title := VStr "Issue title";
          severity := "high|medium|low";
          description := VStr "Detailed description";
          location := VStr "Line 5";
          code := VStr "";
          suggestion := VStr "" |}.
Proof.
  split; [|reflexivity].
  apply (transformIssue_reads documentedFinding).
  intros k Hk. cbn in Hk.
  repeat (destruct Hk as [<- | Hk]; [reflexivity|]). destruct Hk.
Defined.

(** X25.  [transformResponse] reads four fields of the response and no
    other: two responses that agree on [issues], [security], [performance]
    and [optimizedCode] give the same result.  The counts and the grade
    that a provider sends in [stats], and its field [optimized], change
    nothing. *)
Theorem transformResponse_reads (fields fields' : list (string * value)) :
  (forall k, In k responseFields -> lookup k fields = lookup k fields') ->
  transformResponse (VObj fields) = transformResponse (VObj fields').
Proof.
  intros H.
  unfold transformResponse, calculateQualityScore, totalIssues, countSeverity,
    get.
  rewrite (H "issues"), (H "security"), (H "performance"), (H "optimizedCode");
    first [reflexivity | cbn; tauto].
Qed.

Lemma transformResponse_reads_witness :
  transformResponse
    (VObj [("issues", VArr [VObj documentedFinding]);
           ("optimized", VStr "complete optimized code");
           ("stats", VObj [("issuesCount", VNum (mkNumber false "3"));
                           ("qualityScore", VStr "B+")])])
  = transformResponse (VObj [("issues", VArr [VObj documentedFinding])]).
Proof.
  apply (transformResponse_reads
           [("issues", VArr [VObj documentedFinding]);
            ("optimized", VStr "complete optimized code");
            ("stats", VObj [("issuesCount", VNum (mkNumber false "3"));
                            ("qualityScore", VStr "B+")])]
           [("issues", VArr [VObj documentedFinding])]).
  intros k Hk. cbn in Hk.
  repeat (destruct Hk as [<- | Hk]; [reflexivity|]). destruct Hk.
Defined.
